(** * pytorch-AdaIN: the training pipeline of [train.py]

    A shallow embedding of [train.py] (seeding, flat image datasets, the
    learning-rate schedule, the train/validate loop and its checkpoints)
    together with the properties its specification states about it.

    Python integers are [Z]; Python floats are an interface [PyFloat] with
    two instances (exact rationals and IEEE binary64 from [SpecFloat]);
    raising code returns [result]; the mutable objects of the script (the
    optimizer, the data-loader iterators, the summary writer, the
    checkpoint directory) are fields of one explicit [state]. *)

From Stdlib Require Import ZArith QArith Qfield String Ascii List Lia Lqa.
From Stdlib Require Import DecimalString DecimalZ SpecFloat.
From stdpp Require Import base option list gmap strings.

Local Open Scope string_scope.
Local Open Scope list_scope.
Local Open Scope Z_scope.

(** ** Exceptions and fallible results *)

(** The error numbers of the operating system that a path can meet. *)
Inductive errno : Type :=
| ENOENT | ENOTDIR | EISDIR | EACCES | ELOOP | ENAMETOOLONG | EIO.

Inductive exn : Type :=
| ZeroDivisionError
| OverflowError
| IndexError
| ValueError
| TypeError
| OSError (code : errno) (path : string)
| UnidentifiedImageError (path : string)
| EmptyDatasetError.

(** The subclasses of [OSError] that CPython raises for an error number. *)
Abbreviation FileNotFoundError := (OSError ENOENT).
Abbreviation NotADirectoryError := (OSError ENOTDIR).
Abbreviation IsADirectoryError := (OSError EISDIR).
Abbreviation PermissionError := (OSError EACCES).

Inductive result (A : Type) : Type :=
| Ok (a : A)
| Raise (e : exn).
Arguments Ok {A} a.
Arguments Raise {A} e.

Definition rbind {A B} (r : result A) (k : A -> result B) : result B :=
  match r with
  | Ok a => k a
  | Raise e => Raise e
  end.

Definition is_Ok {A} (r : result A) : Prop := exists a, r = Ok a.

Definition is_Okb {A} (r : result A) : bool :=
  match r with Ok _ => true | Raise _ => false end.

#[export] Instance result_ret : MRet result := fun _ a => Ok a.
#[export] Instance result_bind : MBind result := fun _ _ k r => rbind r k.

(** ** Python numbers *)

(** [a % b] on Python integers: floor modulo (the sign follows the divisor),
    [ZeroDivisionError] when [b] is zero. *)
Definition py_mod (a b : Z) : result Z :=
  if decide (b = 0) then Raise ZeroDivisionError else Ok (a mod b).

(** The operations [train.py] performs on Python floats. *)
Class PyFloat (F : Type) : Type := {
  f_one : F;                       (* the literal 1.0 *)
  f_of_int : Z -> result F;        (* int -> float coercion of [float * int] *)
  f_add : F -> F -> F;
  f_mul : F -> F -> F;
  f_is_zero : F -> bool;           (* [x == 0.0] *)
  f_div_raw : F -> F -> F;
}.

(** [x / y] on Python floats raises on a zero divisor. *)
Definition f_div `{PyFloat F} (x y : F) : result F :=
  if f_is_zero y then Raise ZeroDivisionError else Ok (f_div_raw x y).

(** Exact arithmetic: a float read as the rational it denotes, no rounding. *)
#[export] Instance exact_float : PyFloat Q := {|
  f_one := 1%Q;
  f_of_int := fun z => Ok (inject_Z z);
  f_add := Qplus;
  f_mul := Qmult;
  f_is_zero := fun q => Qeq_bool q 0;
  f_div_raw := Qdiv;
|}.

(** IEEE 754 binary64, the representation of a CPython float. *)
Module B64.
Definition prec : Z := 53.
Definition emax : Z := 1024.
Definition t : Type := spec_float.

Definition is_finite (x : t) : bool :=
  match x with
  | S754_zero _ | S754_finite _ _ _ => true
  | _ => false
  end.

(** [float(z)]: round to nearest even; an integer beyond the finite range
    raises [OverflowError]. *)
Definition of_int (z : Z) : result t :=
  let x := binary_normalize prec emax z 0 false in
  if is_finite x then Ok x else Raise OverflowError.

Definition is_zero (x : t) : bool :=
  match x with S754_zero _ => true | _ => false end.

Definition one : t := SFone prec emax.
End B64.

#[export] Instance binary64 : PyFloat B64.t := {|
  f_one := B64.one;
  f_of_int := B64.of_int;
  f_add := SFadd B64.prec B64.emax;
  f_mul := SFmul B64.prec B64.emax;
  f_is_zero := B64.is_zero;
  f_div_raw := SFdiv B64.prec B64.emax;
|}.

(** ** Learning-rate schedule (train.py, line 77) *)

(** [lr = args.lr / (1.0 + args.lr_decay * iteration_count)] *)
Definition lr_schedule `{PyFloat F} (base decay : F) (iteration_count : Z)
  : result F :=
  n ← f_of_int iteration_count;
  f_div base (f_add f_one (f_mul decay n)).


(** ** Configuration (train.py, lines 82-118) *)

Record Args (F : Type) : Type := {
  train_content_dir : string;
  val_content_dir : string;
  style_dir : string;
  vgg : string;
  save_dir : string;
  log_dir : string;
  lr : F;
  lr_decay : F;
  max_iter : Z;
  batch_size : Z;
  style_weight : F;
  content_weight : F;
  n_threads : Z;
  save_model_interval : Z;
  loss_print_interval : Z;
}.
Arguments train_content_dir {F} _.
Arguments val_content_dir {F} _.
Arguments style_dir {F} _.
Arguments vgg {F} _.
Arguments save_dir {F} _.
Arguments log_dir {F} _.
Arguments lr {F} _.
Arguments lr_decay {F} _.
Arguments max_iter {F} _.
Arguments batch_size {F} _.
Arguments style_weight {F} _.
Arguments content_weight {F} _.
Arguments n_threads {F} _.
Arguments save_model_interval {F} _.
Arguments loss_print_interval {F} _.

(** ** Paths and checkpoint names *)

(** ["{:d}".format(n)] *)
Definition py_format_d (n : Z) : string :=
  NilZero.string_of_int (Z.to_int n).

(** ["decoder_iter_{:d}.pth.tar".format(n)] *)
Definition checkpoint_name (n : Z) : string :=
  "decoder_iter_" +:+ py_format_d n +:+ ".pth.tar".

(** [pathlib.PurePosixPath] (Python 3.8 to 3.12): a root -- empty, ["/"]
    or ["//"] -- and the components after it.  Empty components and ["."]
    are dropped when a string is parsed, [".."] is kept. *)
Record Path : Type := {
  path_root : string;
  path_parts : list string;
}.

(** [s.split("/")] *)
Fixpoint split_slash (s : string) : list string :=
  match s with
  | EmptyString => [EmptyString]
  | String c s' =>
      if Ascii.eqb c "/" then EmptyString :: split_slash s'
      else match split_slash s' with
           | x :: xs => String c x :: xs
           | [] => [String c EmptyString]
           end
  end.

(** [s.lstrip("/")] *)
Fixpoint lstrip_slash (s : string) : string :=
  match s with
  | EmptyString => EmptyString
  | String c s' => if Ascii.eqb c "/" then lstrip_slash s' else s
  end.

(** The flavour's [splitroot]: exactly two leading slashes are kept as the
    root ["//"], any other number of them is the root ["/"]. *)
Definition splitroot (part : string) : string * string :=
  match part with
  | String c _ =>
      if Ascii.eqb c "/"
      then let stripped := lstrip_slash part in
           if decide (String.length part - String.length stripped = 2)%nat
           then ("//", stripped)
           else ("/", stripped)
      else ("", part)
  | EmptyString => ("", "")
  end.

Definition is_part (x : string) : bool :=
  negb (String.eqb x "") && negb (String.eqb x ".").

(** [Path(s)] *)
Definition Path_of (s : string) : Path :=
  let '(root, rel) := splitroot s in
  {| path_root := root; path_parts := List.filter is_part (split_slash rel) |}.

(** [p / key]: a key with a root replaces [p]. *)
Definition path_div (p : Path) (key : string) : Path :=
  let q := Path_of key in
  if String.eqb (path_root q) ""
  then {| path_root := path_root p; path_parts := path_parts p ++ path_parts q |}
  else q.

(** [p._make_child_relpath(name)], the path [glob] builds for the entry
    [name] of the directory [p]. *)
Definition path_child (p : Path) (name : string) : Path :=
  {| path_root := path_root p; path_parts := path_parts p ++ [name] |}.

(** [str(p)], the string handed to the operating system. *)
Definition path_str (p : Path) : string :=
  match path_parts p with
  | [] => if String.eqb (path_root p) "" then "." else path_root p
  | parts => path_root p +:+ String.concat "/" parts
  end.

(** The directory part of [str(p / name)] for a plain file name. *)
Fixpoint slashed (parts : list string) : string :=
  match parts with
  | [] => EmptyString
  | x :: xs => x +:+ "/" +:+ slashed xs
  end.

Definition dir_prefix (p : Path) : string :=
  path_root p +:+ slashed (path_parts p).

(** ["/" in s] *)
Fixpoint has_slash (s : string) : bool :=
  match s with
  | EmptyString => false
  | String c s' => Ascii.eqb c "/" || has_slash s'
  end.

(** [str(Path(dir) / name)] *)
Definition path_join (dir name : string) : string :=
  path_str (path_div (Path_of dir) name).

(** [str] of the path that [Path(root).glob("*")] yields for the entry
    [name]. *)
Definition glob_child (root name : string) : string :=
  path_str (path_child (Path_of root) name).

(** ** The framework objects the loop drives *)

Inductive net_mode : Type := Training | Evaluation.

Inductive stream : Type := StyleStream | TrainContentStream | ValContentStream.

#[export] Instance stream_eq_dec : EqDecision stream.
Proof. solve_decision. Defined.

Definition stream_eqb (a b : stream) : bool :=
  match a, b with
  | StyleStream, StyleStream
  | TrainContentStream, TrainContentStream
  | ValContentStream, ValContentStream => true
  | _, _ => false
  end.

(** What [train.py] uses of torch and of the network of [net.py]: tensors
    are opaque, and so are the forward pass, automatic differentiation and
    the Adam update. *)
Class Torch (F : Type) : Type := {
  batch : Type;        (* a stacked batch of images on the device *)
  loss : Type;         (* a scalar tensor, with its graph when gradients are tracked *)
  params : Type;       (* the decoder's learnable parameters, as a state_dict *)
  grad : Type;         (* gradients of the decoder's parameters *)
  moments : Type;      (* Adam's moment estimates *)
  (* [network(content, style)] in the given mode, with or without gradient
     tracking, at the given parameters *)
  forward : net_mode -> bool -> params -> batch -> batch -> loss * loss;
  loss_scale : F -> loss -> loss;          (* [float * tensor] *)
  loss_add : loss -> loss -> loss;         (* [tensor + tensor] *)
  loss_item : loss -> F;                   (* [tensor.item()] *)
  loss_grad : loss -> grad;                (* what [tensor.backward()] accumulates *)
  grad_acc : grad -> grad -> grad;
  (* one Adam update with the learning rates of the parameter groups *)
  adam_step : list F -> grad -> params -> moments -> params * moments;
  to_cpu : params -> params;               (* [.to(torch.device("cpu"))] on every entry *)
}.

Section Loop.
Context {F : Type} `{PyFloat F} `{Torch F}.

Record param_group : Type := { pg_lr : F }.

Record optimizer : Type := {
  param_groups : list param_group;
  opt_state : moments;
}.

(** [torch.optim.Adam(network.decoder.parameters(), lr=args.lr)]: one
    parameter group. *)
Definition Adam (lr0 : F) (m0 : moments) : optimizer :=
  {| param_groups := [ {| pg_lr := lr0 |} ]; opt_state := m0 |}.

(** An iterator over a [DataLoader]: the batches it will yield (or the
    exception the pull raises), and how many have been pulled. *)
Record loader_iter : Type := {
  source : nat -> result batch;
  cursor : nat;
}.

(** Observable effects, in program order. *)
Inductive event : Type :=
| EvAddScalar (tag : string) (value : F) (global_step : Z)
| EvNext (s : stream) (b : batch)
| EvMode (m : net_mode)
| EvForward (m : net_mode) (tracking : bool) (content style : batch)
| EvZeroGrad
| EvBackward (total : loss)
| EvOptimizerStep (lrs : list F)
| EvPrint (cur_lr train_loss val_loss : F)
| EvSave (path : string) (state_dict : params).

Record state : Type := {
  mode : net_mode;
  grad_enabled : bool;
  decoder_params : params;
  grads : option grad;
  optim : optimizer;
  style_iter : loader_iter;
  train_content_iter : loader_iter;
  val_content_iter : loader_iter;
  files : gmap string params;
  trace : list event;
}.

(** *** The state-and-exception monad of the script *)

Definition M (A : Type) : Type := state -> result (A * state).

Definition ret {A} (a : A) : M A := fun st => Ok (a, st).
Definition bind {A B} (m : M A) (k : A -> M B) : M B :=
  fun st => match m st with
            | Ok (a, st') => k a st'
            | Raise e => Raise e
            end.
Definition lift {A} (r : result A) : M A :=
  fun st => match r with Ok a => Ok (a, st) | Raise e => Raise e end.
Definition gets {A} (f : state -> A) : M A := fun st => Ok (f st, st).
Definition modify (f : state -> state) : M unit := fun st => Ok (tt, f st).

#[local] Instance M_ret : MRet M := @ret.
#[local] Instance M_bind : MBind M := fun _ _ k m => bind m k.

Definition emit (e : event) : M unit :=
  modify (fun st =>
    {| mode := mode st; grad_enabled := grad_enabled st;
       decoder_params := decoder_params st; grads := grads st;
       optim := optim st; style_iter := style_iter st;
       train_content_iter := train_content_iter st;
       val_content_iter := val_content_iter st;
       files := files st; trace := trace st ++ [e] |}).

Definition set_mode (m : net_mode) (st : state) : state :=
  {| mode := m; grad_enabled := grad_enabled st;
     decoder_params := decoder_params st; grads := grads st;
     optim := optim st; style_iter := style_iter st;
     train_content_iter := train_content_iter st;
     val_content_iter := val_content_iter st;
     files := files st; trace := trace st |}.

Definition set_grad_enabled (b : bool) (st : state) : state :=
  {| mode := mode st; grad_enabled := b;
     decoder_params := decoder_params st; grads := grads st;
     optim := optim st; style_iter := style_iter st;
     train_content_iter := train_content_iter st;
     val_content_iter := val_content_iter st;
     files := files st; trace := trace st |}.

Definition set_grads (g : option grad) (st : state) : state :=
  {| mode := mode st; grad_enabled := grad_enabled st;
     decoder_params := decoder_params st; grads := g;
     optim := optim st; style_iter := style_iter st;
     train_content_iter := train_content_iter st;
     val_content_iter := val_content_iter st;
     files := files st; trace := trace st |}.

Definition set_optim (o : optimizer) (st : state) : state :=
  {| mode := mode st; grad_enabled := grad_enabled st;
     decoder_params := decoder_params st; grads := grads st;
     optim := o; style_iter := style_iter st;
     train_content_iter := train_content_iter st;
     val_content_iter := val_content_iter st;
     files := files st; trace := trace st |}.

Definition set_params (p : params) (st : state) : state :=
  {| mode := mode st; grad_enabled := grad_enabled st;
     decoder_params := p; grads := grads st;
     optim := optim st; style_iter := style_iter st;
     train_content_iter := train_content_iter st;
     val_content_iter := val_content_iter st;
     files := files st; trace := trace st |}.

Definition set_files (fs : gmap string params) (st : state) : state :=
  {| mode := mode st; grad_enabled := grad_enabled st;
     decoder_params := decoder_params st; grads := grads st;
     optim := optim st; style_iter := style_iter st;
     train_content_iter := train_content_iter st;
     val_content_iter := val_content_iter st;
     files := fs; trace := trace st |}.

Definition get_iter (s : stream) (st : state) : loader_iter :=
  match s with
  | StyleStream => style_iter st
  | TrainContentStream => train_content_iter st
  | ValContentStream => val_content_iter st
  end.

Definition set_style_iter (it : loader_iter) (st : state) : state :=
  {| mode := mode st; grad_enabled := grad_enabled st;
     decoder_params := decoder_params st; grads := grads st;
     optim := optim st; style_iter := it;
     train_content_iter := train_content_iter st;
     val_content_iter := val_content_iter st;
     files := files st; trace := trace st |}.

Definition set_train_content_iter (it : loader_iter) (st : state) : state :=
  {| mode := mode st; grad_enabled := grad_enabled st;
     decoder_params := decoder_params st; grads := grads st;
     optim := optim st; style_iter := style_iter st;
     train_content_iter := it;
     val_content_iter := val_content_iter st;
     files := files st; trace := trace st |}.

Definition set_val_content_iter (it : loader_iter) (st : state) : state :=
  {| mode := mode st; grad_enabled := grad_enabled st;
     decoder_params := decoder_params st; grads := grads st;
     optim := optim st; style_iter := style_iter st;
     train_content_iter := train_content_iter st;
     val_content_iter := it;
     files := files st; trace := trace st |}.

Definition set_iter (s : stream) : loader_iter -> state -> state :=
  match s with
  | StyleStream => set_style_iter
  | TrainContentStream => set_train_content_iter
  | ValContentStream => set_val_content_iter
  end.

(** *** Framework calls *)

(** [next(it)] on a data-loader iterator. *)
Definition next_batch (s : stream) : M batch :=
  it ← gets (get_iter s);
  b ← lift (source it (cursor it));
  modify (set_iter s {| source := source it; cursor := S (cursor it) |});;
  emit (EvNext s b);;
  mret b.

(** [writer.add_scalar(tag, value, step)] *)
Definition add_scalar (tag : string) (value : F) (global_step : Z) : M unit :=
  emit (EvAddScalar tag value global_step).

(** [network.train()] and [network.eval()] *)
Definition network_train : M unit :=
  modify (set_mode Training);; emit (EvMode Training).
Definition network_eval : M unit :=
  modify (set_mode Evaluation);; emit (EvMode Evaluation).

(** [network(content, style)]: the forward pass in the current mode. *)
Definition network (content style : batch) : M (loss * loss) :=
  m ← gets mode;
  g ← gets grad_enabled;
  p ← gets decoder_params;
  emit (EvForward m g content style);;
  mret (forward m g p content style).

(** [optimizer.zero_grad()] *)
Definition zero_grad : M unit :=
  modify (set_grads None);; emit EvZeroGrad.

(** [total.backward()]: gradients accumulate into whatever is stored. *)
Definition backward (total : loss) : M unit :=
  g ← gets grads;
  modify (set_grads (Some (match g with
                           | None => loss_grad total
                           | Some g0 => grad_acc g0 (loss_grad total)
                           end)));;
  emit (EvBackward total).

(** [optimizer.step()]: parameters without a gradient are skipped. *)
Definition optimizer_step : M unit :=
  g ← gets grads;
  o ← gets optim;
  p ← gets decoder_params;
  let lrs := map pg_lr (param_groups o) in
  match g with
  | None => mret tt
  | Some g =>
      let '(p', m') := adam_step lrs g p (opt_state o) in
      modify (set_params p');;
      modify (set_optim {| param_groups := param_groups o; opt_state := m' |})
  end;;
  emit (EvOptimizerStep lrs).

(** *** train.py, lines 75-79 *)

Definition adjust_learning_rate (args : Args F) (opt : optimizer)
    (iteration_count : Z) : result optimizer :=
  new_lr ← lr_schedule (lr args) (lr_decay args) iteration_count;
  mret {| param_groups := map (fun _ => {| pg_lr := new_lr |}) (param_groups opt);
          opt_state := opt_state opt |}.

(** [optimizer.param_groups[0]["lr"]] *)
Definition first_group_lr (opt : optimizer) : result F :=
  match param_groups opt with
  | g :: _ => Ok (pg_lr g)
  | [] => Raise IndexError
  end.

(** *** Checkpoint files (train.py, lines 211-215) *)

Definition checkpoint_path (args : Args F) (n : Z) : string :=
  path_join (save_dir args) (checkpoint_name n).

(** [torch.save(state_dict, path)] of the decoder's parameters moved to
    the CPU. *)
Definition save_checkpoint (args : Args F) (i : Z) : M unit :=
  p ← gets decoder_params;
  fs ← gets files;
  let state_dict := to_cpu p in
  let path := checkpoint_path args (i + 1) in
  modify (set_files (<[path := state_dict]> fs));;
  emit (EvSave path state_dict).

(** *** The loop body (train.py, lines 173-215) *)

(** Lines 180-192. *)
Definition train_part (args : Args F) (i : Z) (style_images : batch) : M loss :=
  network_train;;
  train_content_images ← next_batch TrainContentStream;
  '(train_loss_c, train_loss_s) ← network train_content_images style_images;
  let train_loss_c := loss_scale (content_weight args) train_loss_c in
  let train_loss_s := loss_scale (style_weight args) train_loss_s in
  let train_loss := loss_add train_loss_c train_loss_s in
  zero_grad;;
  backward train_loss;;
  optimizer_step;;
  add_scalar "train loss_content" (loss_item train_loss_c) (i + 1);;
  add_scalar "train loss_style" (loss_item train_loss_s) (i + 1);;
  mret train_loss.

(** Lines 195-204; [with torch.no_grad()] switches gradient tracking off
    for its block and restores the previous setting afterwards. *)
Definition val_part (args : Args F) (i : Z) (style_images : batch) : M loss :=
  network_eval;;
  prev ← gets grad_enabled;
  modify (set_grad_enabled false);;
  val_content_images ← next_batch ValContentStream;
  '(val_loss_c, val_loss_s) ← network val_content_images style_images;
  let val_loss_c := loss_scale (content_weight args) val_loss_c in
  let val_loss_s := loss_scale (style_weight args) val_loss_s in
  let val_loss := loss_add val_loss_c val_loss_s in
  modify (set_grad_enabled prev);;
  add_scalar "val loss_content" (loss_item val_loss_c) (i + 1);;
  add_scalar "val loss_style" (loss_item val_loss_s) (i + 1);;
  mret val_loss.

(** The condition of line 211, evaluated left to right. *)
Definition should_save (args : Args F) (i : Z) : result bool :=
  r ← py_mod (i + 1) (save_model_interval args);
  mret (bool_decide (r = 0) || bool_decide (i + 1 = max_iter args)).

(** The condition of line 206. *)
Definition should_print (args : Args F) (i : Z) : result bool :=
  r ← py_mod (i + 1) (loss_print_interval args);
  mret (bool_decide (r = 0)).

Definition iteration (args : Args F) (i : Z) : M unit :=
  o ← gets optim;
  o' ← lift (adjust_learning_rate args o i);
  modify (set_optim o');;
  cur_lr ← lift (first_group_lr o');
  add_scalar "Learning rate" cur_lr (i + 1);;
  style_images ← next_batch StyleStream;
  train_loss ← train_part args i style_images;
  val_loss ← val_part args i style_images;
  pr ← lift (should_print args i);
  (if pr : bool
   then emit (EvPrint cur_lr (loss_item train_loss) (loss_item val_loss))
   else mret tt);;
  sv ← lift (should_save args i);
  (if sv : bool then save_checkpoint args i else mret tt).

(** [for i in range(n): body(i)], started at [i]. *)
Fixpoint for_range (n : nat) (i : Z) (body : Z -> M unit) : M unit :=
  match n with
  | O => mret tt
  | S n' => body i;; for_range n' (i + 1) body
  end.

(** Lines 172-215: [for i in tqdm(range(args.max_iter))]. *)
Definition train_loop (args : Args F) : M unit :=
  for_range (Z.to_nat (max_iter args)) 0 (iteration args).
End Loop.

(** ** Image transforms (train.py, lines 37-52) *)

(** What the script uses of PIL and torchvision. *)
Class Imaging : Type := {
  file_content : Type;                       (* the bytes of a file *)
  image : Type;                              (* a PIL image *)
  tensor : Type;                             (* a float tensor *)
  decode_rgb : file_content -> option image; (* [Image.open(p).convert("RGB")] *)
  resize_image : Z * Z -> image -> image;
  resize_tensor : Z * Z -> tensor -> tensor;
  pil_to_tensor : image -> tensor;           (* scaled to [0, 1] *)
}.

Inductive transform : Type :=
| Resize (size : Z * Z)
| ToTensor.

#[export] Instance transform_eq_dec : EqDecision transform.
Proof. solve_decision. Defined.

(** [transforms.Compose(transform_list)] is its list.  The commented-out
    [RandomCrop(256)] is absent from both lists. *)
Definition train_transform : list transform :=
  [ Resize (512, 512); ToTensor ].

Definition val_transform : list transform :=
  [ Resize (512, 512); ToTensor ].

(** Lines 136-138. *)
Definition train_content_tf : list transform := train_transform.
Definition val_content_tf : list transform := val_transform.
Definition style_tf : list transform := train_transform.

Section Data.
Context `{Imaging}.

(** The value a transform pipeline carries. *)
Inductive pic : Type :=
| Pil (im : image)
| Tens (t : tensor).

Definition apply_transform (t : transform) (x : pic) : result pic :=
  match t, x with
  | Resize size, Pil im => Ok (Pil (resize_image size im))
  | Resize size, Tens te => Ok (Tens (resize_tensor size te))
  | ToTensor, Pil im => Ok (Tens (pil_to_tensor im))
  | ToTensor, Tens _ => Raise TypeError
  end.

(** [Compose.__call__]: the transforms in list order. *)
Fixpoint compose_call (ts : list transform) (x : pic) : result pic :=
  match ts with
  | [] => Ok x
  | t :: ts' => y ← apply_transform t x; compose_call ts' y
  end.

(** ** Flat image dataset (train.py, lines 55-72) *)

(** What the operating system answers for a path string.  The file
    system is a finite map from path strings to these answers; a string
    without an entry does not exist ([ENOENT]). *)
Inductive fs_node : Type :=
| Directory (children : list string)   (* entry names, in listing order *)
| RegularFile (content : file_content)
| UnreadableDirectory                  (* a directory without read permission *)
| Unresolvable (code : errno).         (* the path does not resolve: [stat] and [open] fail *)

(** pathlib's [_ignore_error]: the error numbers of [stat] that [is_dir]
    answers with [False]; any other is raised. *)
Definition ignore_error (code : errno) : bool :=
  match code with
  | ENOENT | ENOTDIR | ELOOP => true
  | _ => false
  end.

(** [Path.is_dir] *)
Definition is_dir (fs : gmap string fs_node) (p : Path) : result bool :=
  match fs !! path_str p with
  | Some (Directory _) | Some UnreadableDirectory => Ok true
  | Some (RegularFile _) | None => Ok false
  | Some (Unresolvable code) =>
      if ignore_error code then Ok false else Raise (OSError code (path_str p))
  end.

(** [os.scandir(p)]: the names of the entries. *)
Definition scandir (fs : gmap string fs_node) (p : Path) : result (list string) :=
  match fs !! path_str p with
  | Some (Directory children) => Ok children
  | Some UnreadableDirectory => Raise (PermissionError (path_str p))
  | Some (RegularFile _) => Raise (NotADirectoryError (path_str p))
  | Some (Unresolvable code) => Raise (OSError code (path_str p))
  | None => Raise (FileNotFoundError (path_str p))
  end.

(** [list(Path(root).glob("*"))]: nothing unless [is_dir]; then one path per
    entry, whatever its name; a [PermissionError] of the listing ends it
    silently. *)
Definition glob_star (fs : gmap string fs_node) (root : string)
    : result (list string) :=
  let p := Path_of root in
  d ← is_dir fs p;
  if d : bool
  then match scandir fs p with
       | Ok names => Ok (map (glob_child root) names)
       | Raise (PermissionError _) => Ok []
       | Raise e => Raise e
       end
  else Ok [].

(** [paths] holds [str(path)] for every captured path. *)
Record FlatFolderDataset : Type := {
  root : string;
  paths : list string;
  ds_transform : list transform;
}.

(** [FlatFolderDataset.__init__] *)
Definition FlatFolderDataset_init (fs : gmap string fs_node) (root : string)
    (tf : list transform) : result FlatFolderDataset :=
  paths ← glob_star fs root;
  Ok {| root := root; paths := paths; ds_transform := tf |}.

(** [FlatFolderDataset.__len__] *)
Definition FlatFolderDataset_len (ds : FlatFolderDataset) : Z :=
  Z.of_nat (length (paths ds)).

(** [l[index]] on a Python list: a negative index counts from the end. *)
Definition py_index {A} (l : list A) (index : Z) : result A :=
  let n := Z.of_nat (length l) in
  let j := if decide (index < 0) then index + n else index in
  if decide (0 <= j < n)
  then match l !! Z.to_nat j with
       | Some a => Ok a
       | None => Raise IndexError
       end
  else Raise IndexError.

(** [Image.open(str(path)).convert("RGB")] *)
Definition image_open (fs : gmap string fs_node) (path : string) : result image :=
  match fs !! path with
  | None => Raise (FileNotFoundError path)
  | Some (Directory _) => Raise (IsADirectoryError path)
  | Some UnreadableDirectory => Raise (PermissionError path)
  | Some (Unresolvable code) => Raise (OSError code path)
  | Some (RegularFile content) =>
      match decode_rgb content with
      | Some im => Ok im
      | None => Raise (UnidentifiedImageError path)
      end
  end.

(** [FlatFolderDataset.__getitem__], on the file system of the moment of
    the call. *)
Definition FlatFolderDataset_getitem (fs : gmap string fs_node)
    (ds : FlatFolderDataset) (index : Z) : result pic :=
  path ← py_index (paths ds) index;
  img ← image_open fs path;
  compose_call (ds_transform ds) (Pil img).

(** [FlatFolderDataset.name] *)
Definition FlatFolderDataset_name (ds : FlatFolderDataset) : string :=
  "FlatFolderDataset".
End Data.

(** ** Command-line schema (train.py, lines 82-117) *)

Inductive py_type : Type := Tstr | Tfloat | Tint.

Record argument : Type := {
  flag : string;
  arg_type : option py_type;
  required : bool;
  arg_default : option string;    (* the default, as written in the source *)
}.

Definition parser : list argument := [
  {| flag := "--train_content_dir"; arg_type := Some Tstr; required := true; arg_default := None |};
  {| flag := "--val_content_dir"; arg_type := Some Tstr; required := true; arg_default := None |};
  {| flag := "--style_dir"; arg_type := Some Tstr; required := true; arg_default := None |};
  {| flag := "--vgg"; arg_type := Some Tstr; required := false;
     arg_default := Some "models/vgg_normalised.pth" |};
  {| flag := "--save_dir"; arg_type := None; required := false;
     arg_default := Some "./experiments" |};
  {| flag := "--log_dir"; arg_type := None; required := false; arg_default := Some "./logs" |};
  {| flag := "--lr"; arg_type := Some Tfloat; required := false; arg_default := Some "1e-4" |};
  {| flag := "--lr_decay"; arg_type := Some Tfloat; required := false;
     arg_default := Some "1e-5" |};
  {| flag := "--max_iter"; arg_type := Some Tint; required := false;
     arg_default := Some "160000" |};
  {| flag := "--batch_size"; arg_type := Some Tint; required := false; arg_default := Some "8" |};
  {| flag := "--style_weight"; arg_type := Some Tfloat; required := false;
     arg_default := Some "1.0" |};
  {| flag := "--content_weight"; arg_type := Some Tfloat; required := false;
     arg_default := Some "1.0" |};
  {| flag := "--n_threads"; arg_type := Some Tint; required := false; arg_default := Some "16" |};
  {| flag := "--save_model_interval"; arg_type := Some Tint; required := false;
     arg_default := Some "10000" |};
  {| flag := "--loss_print_interval"; arg_type := Some Tint; required := false;
     arg_default := Some "100" |}
].

(** [needle in s] on strings. *)
Fixpoint contains (needle s : string) : bool :=
  String.prefix needle s ||
  match s with
  | EmptyString => false
  | String _ s' => contains needle s'
  end.

(** ** Deterministic seeding (train.py, lines 19-35) *)

(** numpy's global generator. *)
Class NumpyRandom : Type := {
  rng : Type;
  np_seed : Z -> rng;                             (* state after [np.random.seed(s)] *)
  np_permutation : rng -> nat -> list nat * rng;  (* [np.random.permutation(n)] *)
}.

Section Seeding.
Context `{NumpyRandom}.

(** The process-wide settings the script touches.  A generator other than
    numpy's is described by the seed it was last given ([None]: seeded by
    the operating system). *)
Record process : Type := {
  random_seed : option Z;
  environ_PYTHONHASHSEED : option string;
  np_random : rng;
  torch_seed : option Z;
  cuda_seed : option Z;
  cuda_seed_all : option Z;
  printoptions_precision : Z;
  cudnn_benchmark : bool;
  cudnn_deterministic : bool;
  MAX_IMAGE_PIXELS : option Z;
  LOAD_TRUNCATED_IMAGES : bool;
}.

(** Lines 19-22, executed when the module is loaded. *)
Definition module_prologue (p : process) : process :=
  {| random_seed := random_seed p;
     environ_PYTHONHASHSEED := environ_PYTHONHASHSEED p;
     np_random := np_random p;
     torch_seed := torch_seed p;
     cuda_seed := cuda_seed p;
     cuda_seed_all := cuda_seed_all p;
     printoptions_precision := printoptions_precision p;
     cudnn_benchmark := true;
     cudnn_deterministic := cudnn_deterministic p;
     MAX_IMAGE_PIXELS := None;
     LOAD_TRUNCATED_IMAGES := true |}.

(** [def seed_everything(seed=42)]; [None] stands for an omitted argument.
    [np.random.seed] accepts a seed in [[0, 2**32)] only and raises
    [ValueError] otherwise. *)
Definition seed_everything (seed : option Z) (p : process) : result process :=
  let seed := default 42 seed in
  if decide (0 <= seed < 2 ^ 32)
  then Ok {| random_seed := Some seed;
             environ_PYTHONHASHSEED := Some (py_format_d seed);
             np_random := np_seed seed;
             torch_seed := Some seed;
             cuda_seed := Some seed;
             cuda_seed_all := Some seed;
             printoptions_precision := 10;
             cudnn_benchmark := false;
             cudnn_deterministic := true;
             MAX_IMAGE_PIXELS := MAX_IMAGE_PIXELS p;
             LOAD_TRUNCATED_IMAGES := LOAD_TRUNCATED_IMAGES p |}
  else Raise ValueError.

(** Every generator of the process was last seeded with [s]. *)
Definition seeded_with (s : Z) (p : process) : Prop :=
  random_seed p = Some s /\
  environ_PYTHONHASHSEED p = Some (py_format_d s) /\
  np_random p = np_seed s /\
  torch_seed p = Some s /\
  cuda_seed p = Some s /\
  cuda_seed_all p = Some s.

(** ** Infinite samplers *)

(** Modelled from the spec: [sampler.py] ([InfiniteSamplerWrapper]) is not
    among the sources.  The specification describes it as an internal
    counter plus a current permutation of the dataset indices: the elements
    of one fresh random permutation of [[0, N)] are emitted in order before
    the next permutation is drawn, and a dataset of size zero is refused
    with [EmptyDatasetError] at construction.  The permutations are drawn
    from the generator that [seed_everything] seeds. *)
Record sampler : Type := {
  num_samples : nat;
  order : list nat;
  position : nat;
}.

Definition InfiniteSamplerWrapper (n : nat) : result sampler :=
  match n with
  | O => Raise EmptyDatasetError
  | S _ => Ok {| num_samples := n; order := []; position := 0 |}
  end.

(** The next index of a sampler, drawing a new permutation on rollover. *)
Definition sampler_next (sm : sampler) (g : rng) : result (nat * sampler * rng) :=
  match order sm !! position sm with
  | Some idx =>
      Ok (idx, {| num_samples := num_samples sm; order := order sm;
                  position := S (position sm) |}, g)
  | None =>
      let '(perm, g') := np_permutation g (num_samples sm) in
      match perm with
      | idx :: _ =>
          Ok (idx, {| num_samples := num_samples sm; order := perm;
                      position := 1 |}, g')
      | [] => Raise IndexError
      end
  end.

(** The three samplers of the pipeline and the generator they share. *)
Record sampling_state : Type := {
  shared_rng : rng;
  style_sampler : sampler;
  train_content_sampler : sampler;
  val_content_sampler : sampler;
}.

Definition get_sampler (s : stream) (st : sampling_state) : sampler :=
  match s with
  | StyleStream => style_sampler st
  | TrainContentStream => train_content_sampler st
  | ValContentStream => val_content_sampler st
  end.

Definition put_sampler (s : stream) (sm : sampler) (g : rng)
    (st : sampling_state) : sampling_state :=
  match s with
  | StyleStream =>
      {| shared_rng := g; style_sampler := sm;
         train_content_sampler := train_content_sampler st;
         val_content_sampler := val_content_sampler st |}
  | TrainContentStream =>
      {| shared_rng := g; style_sampler := style_sampler st;
         train_content_sampler := sm;
         val_content_sampler := val_content_sampler st |}
  | ValContentStream =>
      {| shared_rng := g; style_sampler := style_sampler st;
         train_content_sampler := train_content_sampler st;
         val_content_sampler := sm |}
  end.

(** One index request, labelled with the stream that asks and the index it
    gets. *)
Inductive sample_step : sampling_state -> stream * nat -> sampling_state -> Prop :=
| sample_step_intro st s idx sm' g' :
    sampler_next (get_sampler s st) (shared_rng st) = Ok (idx, sm', g') ->
    sample_step st (s, idx) (put_sampler s sm' g' st).

(** The indices sampled along a sequence of requests. *)
Inductive sample_run : sampling_state -> list stream -> list (stream * nat) ->
                       sampling_state -> Prop :=
| sample_run_nil st : sample_run st [] [] st
| sample_run_cons st s ss idx st' tr st'' :
    sample_step st (s, idx) st' ->
    sample_run st' ss tr st'' ->
    sample_run st (s :: ss) ((s, idx) :: tr) st''.

(** The same, as a function. *)
Fixpoint sample_all (st : sampling_state) (ss : list stream)
    : result (list (stream * nat) * sampling_state) :=
  match ss with
  | [] => Ok ([], st)
  | s :: ss' =>
      '(idx, sm', g') ← sampler_next (get_sampler s st) (shared_rng st);
      '(tr, st') ← sample_all (put_sampler s sm' g' st) ss';
      Ok ((s, idx) :: tr, st')
  end.

(** The requests of one iteration of the loop: a batch of style indices,
    a batch of train-content indices, a batch of validation-content
    indices (lines 177, 181, 197). *)
Definition iteration_requests (batch_size : nat) : list stream :=
  replicate batch_size StyleStream ++
  replicate batch_size TrainContentStream ++
  replicate batch_size ValContentStream.

Fixpoint run_requests (iterations batch_size : nat) : list stream :=
  match iterations with
  | O => []
  | S n => iteration_requests batch_size ++ run_requests n batch_size
  end.

(** The samplers as the pipeline sets them up after seeding with [s] over
    datasets of the given sizes. *)
Definition sampling_init (s : Z) (p : process)
    (n_train n_val n_style : nat) : result sampling_state :=
  p' ← seed_everything (Some s) p;
  tr ← InfiniteSamplerWrapper n_train;
  va ← InfiniteSamplerWrapper n_val;
  sty ← InfiniteSamplerWrapper n_style;
  Ok {| shared_rng := np_random p'; style_sampler := sty;
        train_content_sampler := tr; val_content_sampler := va |}.

(** A run of the pipeline seeded with [s] samples the indices [tr]. *)
Definition pipeline_samples (s : Z) (p : process) (n_train n_val n_style : nat)
    (batch_size iterations : nat) (tr : list (stream * nat)) : Prop :=
  exists st0 st1,
    sampling_init s p n_train n_val n_style = Ok st0 /\
    sample_run st0 (run_requests iterations batch_size) tr st1.
End Seeding.

(** ** The script as a whole (train.py, lines 120-216) *)

Section Main.
Context {F : Type} `{PyFloat F} `{Torch F} `{NumpyRandom}.

(** The state in which the loop starts: a freshly built network (training
    mode, gradient tracking on, no gradients stored), Adam at [args.lr],
    and three fresh loader iterators. *)
Definition initial_state (args : Args F) (decoder0 : params) (m0 : moments)
    (style_src train_src val_src : nat -> result batch)
    (disk : gmap string params) : state :=
  {| mode := Training;
     grad_enabled := true;
     decoder_params := decoder0;
     grads := None;
     optim := Adam (lr args) m0;
     style_iter := {| source := style_src; cursor := 0 |};
     train_content_iter := {| source := train_src; cursor := 0 |};
     val_content_iter := {| source := val_src; cursor := 0 |};
     files := disk;
     trace := [] |}.

(** [seed_everything()] at line 120, then the loop. *)
Definition main (args : Args F) (p : process) (decoder0 : params) (m0 : moments)
    (style_src train_src val_src : nat -> result batch)
    (disk : gmap string params) : result (process * state) :=
  p' ← seed_everything None (module_prologue p);
  '(_, st) ← train_loop args
               (initial_state args decoder0 m0 style_src train_src val_src disk);
  Ok (p', st).
End Main.

(** ** Reading a trace *)

Section Traces.
Context {F : Type} `{Torch F}.

(** The paths written by [torch.save], in order. *)
Definition saved_paths (tr : list (event (F:=F))) : list string :=
  omap (fun e => match e with EvSave path _ => Some path | _ => None end) tr.

(** The batches pulled from a stream, in order. *)
Definition pulled (s : stream) (tr : list (event (F:=F))) : list batch :=
  omap (fun e => match e with
                 | EvNext s' b => if stream_eqb s' s then Some b else None
                 | _ => None
                 end) tr.

(** The style argument of every forward pass in the given mode. *)
Definition forward_styles (m : net_mode) (tr : list (event (F:=F))) : list batch :=
  omap (fun e => match e with
                 | EvForward Training _ _ sty =>
                     match m with Training => Some sty | _ => None end
                 | EvForward Evaluation _ _ sty =>
                     match m with Evaluation => Some sty | _ => None end
                 | _ => None
                 end) tr.

Definition is_optimizer_step (e : event (F:=F)) : bool :=
  match e with EvOptimizerStep _ => true | _ => false end.

Definition is_backward (e : event (F:=F)) : bool :=
  match e with EvBackward _ => true | _ => false end.
End Traces.

(** ** One iteration in closed form *)

Section Closed.
Context {F : Type} `{PyFloat F} `{Torch F}.

(** [content_weight * loss_c + style_weight * loss_s] *)
Definition weighted (args : Args F) (l : loss * loss) : loss :=
  loss_add (loss_scale (content_weight args) l.1)
           (loss_scale (style_weight args) l.2).

Definition advance (it : loader_iter) : loader_iter :=
  {| source := source it; cursor := S (cursor it) |}.

(** Line 211 on integers that divide: is a checkpoint due after iteration
    [i]? *)
Definition save_due (args : Args F) (i : Z) : bool :=
  bool_decide ((i + 1) mod save_model_interval args = 0)
  || bool_decide (i + 1 = max_iter args).

Definition print_due (args : Args F) (i : Z) : bool :=
  bool_decide ((i + 1) mod loss_print_interval args = 0).

(** The completed-iteration counts at which a checkpoint is due, among the
    [n] iterations from [i] on. *)
Fixpoint due_checkpoints (args : Args F) (n : nat) (i : Z) : list Z :=
  match n with
  | O => []
  | S n' => (if save_due args i then [i + 1] else [])
            ++ due_checkpoints args n' (i + 1)
  end.

(** The events of the training part of iteration [i], given the learning
    rate [r] set for it, the style batch [s], the content batch [c], the
    gradient-tracking flag [ge] and the losses [tl] of the forward pass. *)
Definition train_events (args : Args F) (i : Z) (lrs : list F)
    (s c : batch) (ge : bool) (tl : loss * loss) : list event :=
  [ EvMode Training;
    EvNext TrainContentStream c;
    EvForward Training ge c s;
    EvZeroGrad;
    EvBackward (weighted args tl);
    EvOptimizerStep lrs;
    EvAddScalar "train loss_content"
      (loss_item (loss_scale (content_weight args) tl.1)) (i + 1);
    EvAddScalar "train loss_style"
      (loss_item (loss_scale (style_weight args) tl.2)) (i + 1) ].

(** The events of the validation part. *)
Definition val_events (args : Args F) (i : Z) (s v : batch)
    (vl : loss * loss) : list event :=
  [ EvMode Evaluation;
    EvNext ValContentStream v;
    EvForward Evaluation false v s;
    EvAddScalar "val loss_content"
      (loss_item (loss_scale (content_weight args) vl.1)) (i + 1);
    EvAddScalar "val loss_style"
      (loss_item (loss_scale (style_weight args) vl.2)) (i + 1) ].

(** The state after the training part, started in [st] with batches [c]
    and [s]. *)
Definition after_train (args : Args F) (i : Z) (st : state) (s c : batch) : state :=
  let lrs := map pg_lr (param_groups (optim st)) in
  let tl := forward Training (grad_enabled st) (decoder_params st) c s in
  let upd := adam_step lrs (loss_grad (weighted args tl))
               (decoder_params st) (opt_state (optim st)) in
  {| mode := Training;
     grad_enabled := grad_enabled st;
     decoder_params := upd.1;
     grads := Some (loss_grad (weighted args tl));
     optim := {| param_groups := param_groups (optim st); opt_state := upd.2 |};
     style_iter := style_iter st;
     train_content_iter := advance (train_content_iter st);
     val_content_iter := val_content_iter st;
     files := files st;
     trace := trace st ++ train_events args i lrs s c (grad_enabled st) tl |}.

(** The state after the validation part. *)
Definition after_val (args : Args F) (i : Z) (st : state) (s v : batch) : state :=
  let vl := forward Evaluation false (decoder_params st) v s in
  {| mode := Evaluation;
     grad_enabled := grad_enabled st;
     decoder_params := decoder_params st;
     grads := grads st;
     optim := optim st;
     style_iter := style_iter st;
     train_content_iter := train_content_iter st;
     val_content_iter := advance (val_content_iter st);
     files := files st;
     trace := trace st ++ val_events args i s v vl |}.

(** The state before the training part: the rate [r] written to every
    parameter group and logged, the style batch [s] pulled. *)
Definition after_head (i : Z) (st : state) (r : F) (s : batch) : state :=
  {| mode := mode st;
     grad_enabled := grad_enabled st;
     decoder_params := decoder_params st;
     grads := grads st;
     optim := {| param_groups := map (fun _ => {| pg_lr := r |}) (param_groups (optim st));
                 opt_state := opt_state (optim st) |};
     style_iter := advance (style_iter st);
     train_content_iter := train_content_iter st;
     val_content_iter := val_content_iter st;
     files := files st;
     trace := trace st ++ [ EvAddScalar "Learning rate" r (i + 1);
                            EvNext StyleStream s ] |}.

(** The events that close iteration [i]: the progress line and the
    checkpoint, when due. *)
Definition tail_events (args : Args F) (i : Z) (r : F) (train_loss val_loss : loss)
    (p : params) (pr sv : bool) : list event :=
  (if pr then [ EvPrint r (loss_item train_loss) (loss_item val_loss) ] else [])
  ++ (if sv then [ EvSave (checkpoint_path args (i + 1)) (to_cpu p) ] else []).

(** The events of the whole iteration [i], started in [st]. *)
Definition iteration_events (args : Args F) (i : Z) (st : state) (r : F)
    (s c v : batch) (pr sv : bool) : list event :=
  let st1 := after_head i st r s in
  let st2 := after_train args i st1 s c in
  let tl := forward Training (grad_enabled st) (decoder_params st) c s in
  let vl := forward Evaluation false (decoder_params st2) v s in
  [ EvAddScalar "Learning rate" r (i + 1); EvNext StyleStream s ]
  ++ train_events args i (map pg_lr (param_groups (optim st1))) s c (grad_enabled st) tl
  ++ val_events args i s v vl
  ++ tail_events args i r (weighted args tl) (weighted args vl)
       (decoder_params st2) pr sv.

(** The state after the whole iteration [i]. *)
Definition after_iteration (args : Args F) (i : Z) (st : state) (r : F)
    (s c v : batch) (pr sv : bool) : state :=
  let st1 := after_head i st r s in
  let st2 := after_train args i st1 s c in
  let st3 := after_val args i st2 s v in
  {| mode := mode st3;
     grad_enabled := grad_enabled st3;
     decoder_params := decoder_params st3;
     grads := grads st3;
     optim := optim st3;
     style_iter := style_iter st3;
     train_content_iter := train_content_iter st3;
     val_content_iter := val_content_iter st3;
     files := if sv
              then <[checkpoint_path args (i + 1) := to_cpu (decoder_params st3)]> (files st3)
              else files st3;
     trace := trace st ++ iteration_events args i st r s c v pr sv |}.

(** The next [n] pulls of every stream succeed. *)
Definition pulls_ok (st : state) (n : nat) : Prop :=
  forall (s : stream) (k : nat), (k < n)%nat ->
    is_Ok (source (get_iter s st) (cursor (get_iter s st) + k)).

(** The schedule yields a rate at each of the [n] iterations from [i] on. *)
Definition rates_ok (args : Args F) (i : Z) (n : nat) : Prop :=
  forall k : nat, (k < n)%nat ->
    is_Ok (lr_schedule (lr args) (lr_decay args) (i + Z.of_nat k)).
End Closed.

(** ** Small concrete instances, to run the definitions *)

Module Demo.

(** A one-parameter network over exact arithmetic. *)
#[export] Instance torch : Torch Q := {|
  batch := Z;
  loss := Q;
  params := Q;
  grad := Q;
  moments := nat;
  forward := fun _ _ p c s => (p * inject_Z c, p * inject_Z s)%Q;
  loss_scale := Qmult;
  loss_add := Qplus;
  loss_item := fun l => l;
  loss_grad := fun l => l;
  grad_acc := Qplus;
  adam_step := fun lrs g p m => ((p - hd 0 lrs * g)%Q, S m);
  to_cpu := fun p => p;
|}.

(** Files are strings; a file decodes when it is not empty. *)
#[export] Instance imaging : Imaging := {|
  file_content := string;
  image := string;
  tensor := string;
  decode_rgb := fun c => if decide (c = "") then None else Some c;
  resize_image := fun _ im => "resized:" +:+ im;
  resize_tensor := fun _ t => "resized:" +:+ t;
  pil_to_tensor := fun im => "tensor:" +:+ im;
|}.

(** A generator that counts its draws and rotates the identity. *)
#[export] Instance numpy : NumpyRandom := {|
  rng := nat;
  np_seed := Z.to_nat;
  np_permutation := fun g n =>
    (map (fun i => ((i + g) mod n)%nat) (seq 0 n), S g);
|}.

Definition args : Args Q := {|
  train_content_dir := "content/train";
  val_content_dir := "content/val";
  style_dir := "style";
  vgg := "models/vgg_normalised.pth";
  save_dir := "./experiments";
  log_dir := "./logs";
  lr := 1 # 10000;
  lr_decay := 1 # 100000;
  max_iter := 3;
  batch_size := 2;
  style_weight := 1%Q;
  content_weight := 1%Q;
  n_threads := 16;
  save_model_interval := 2;
  loss_print_interval := 1;
|}.

Definition proc : process := {|
  random_seed := None;
  environ_PYTHONHASHSEED := None;
  np_random := 7%nat;
  torch_seed := None;
  cuda_seed := None;
  cuda_seed_all := None;
  printoptions_precision := 4;
  cudnn_benchmark := false;
  cudnn_deterministic := false;
  MAX_IMAGE_PIXELS := Some 89478485;
  LOAD_TRUNCATED_IMAGES := false;
|}.

(** A process whose generators have been used before. *)
Definition proc_used : process := {|
  random_seed := Some 7;
  environ_PYTHONHASHSEED := None;
  np_random := 1%nat;
  torch_seed := None;
  cuda_seed := None;
  cuda_seed_all := None;
  printoptions_precision := 4;
  cudnn_benchmark := true;
  cudnn_deterministic := false;
  MAX_IMAGE_PIXELS := None;
  LOAD_TRUNCATED_IMAGES := true;
|}.

Definition src (k : Z) : nat -> result Z := fun n => Ok (k + Z.of_nat n).

Definition st0 : state :=
  initial_state args 1%Q 0%nat (src 100) (src 200) (src 300) ∅.

Definition disk : gmap string fs_node :=
  {[ "style" := Directory ["a.jpg"; "b.png"; "notes.txt"];
     "style/a.jpg" := RegularFile "A";
     "style/b.png" := RegularFile "B";
     "style/notes.txt" := RegularFile "" ]}.
End Demo.


(** ** Reading more of a trace, and variations of a configuration *)

Section MoreDefinitions.
Context {F : Type} `{PyFloat F} `{Torch F}.

(** The configuration with [--save_model_interval k]. *)
Definition with_save_model_interval (k : Z) (args : Args F) : Args F :=
  {| train_content_dir := train_content_dir args;
     val_content_dir := val_content_dir args;
     style_dir := style_dir args;
     vgg := vgg args;
     save_dir := save_dir args;
     log_dir := log_dir args;
     lr := lr args;
     lr_decay := lr_decay args;
     max_iter := max_iter args;
     batch_size := batch_size args;
     style_weight := style_weight args;
     content_weight := content_weight args;
     n_threads := n_threads args;
     save_model_interval := k;
     loss_print_interval := loss_print_interval args |}.

(** In one iteration the style batch is pulled first, then the
    train-content batch, then the validation-content batch. *)
Definition pulled_before (a b : stream) : bool :=
  match a, b with
  | StyleStream, TrainContentStream
  | StyleStream, ValContentStream
  | TrainContentStream, ValContentStream => true
  | _, _ => false
  end.

Definition is_print (e : event (F:=F)) : bool :=
  match e with EvPrint _ _ _ => true | _ => false end.

(** The learning rates of the optimizer steps, in order. *)
Definition step_rates (tr : list (event (F:=F))) : list (list F) :=
  omap (fun e => match e with EvOptimizerStep lrs => Some lrs | _ => None end) tr.

(** The values logged under a tag, with their steps, in order. *)
Definition logged (tag : string) (tr : list (event (F:=F))) : list (F * Z) :=
  omap (fun e => match e with
                 | EvAddScalar t v n => if String.eqb t tag then Some (v, n) else None
                 | _ => None
                 end) tr.
End MoreDefinitions.

(** * Properties *)

(** ** Strings and checkpoint names *)

Lemma string_length_app (a b : string) :
  String.length (a +:+ b) = (String.length a + String.length b)%nat.
Proof. induction a as [|x a IH]; simpl; [done | by f_equal]. Qed.

Lemma string_app_inj_r (a b t : string) : a +:+ t = b +:+ t -> a = b.
Proof.
  revert b. induction a as [|x a IH]; intros [|y b] E.
  - done.
  - apply (f_equal String.length) in E.
    rewrite !string_length_app in E. cbn in E. lia.
  - apply (f_equal String.length) in E.
    rewrite !string_length_app in E. cbn in E. lia.
  - cbn in E. injection E as -> E. f_equal. by apply IH.
Qed.

Lemma to_int_proper (n : Z) : Z.to_int n <> Decimal.Pos Decimal.Nil /\ Z.to_int n <> Decimal.Neg Decimal.Nil.
Proof.
  destruct n as [|p|p]; cbn; split; try discriminate.
  - intros [= E]. by apply (DecimalPos.Unsigned.to_uint_nonnil p).
  - intros [= E]. by apply (DecimalPos.Unsigned.to_uint_nonnil p).
Qed.

Lemma py_format_d_inj (a b : Z) : py_format_d a = py_format_d b -> a = b.
Proof.
  unfold py_format_d. intros E.
  destruct (to_int_proper a) as [Ha1 Ha2], (to_int_proper b) as [Hb1 Hb2].
  pose proof (NilZero.isi _ Ha1 Ha2) as Ia.
  pose proof (NilZero.isi _ Hb1 Hb2) as Ib.
  rewrite E in Ia. rewrite Ia in Ib. injection Ib as Ib.
  rewrite <- (DecimalZ.of_to a), <- (DecimalZ.of_to b). by rewrite Ib.
Qed.

Lemma checkpoint_name_inj (a b : Z) : checkpoint_name a = checkpoint_name b -> a = b.
Proof.
  unfold checkpoint_name. intros E.
  apply String.app_inj in E. apply string_app_inj_r in E.
  by apply py_format_d_inj.
Qed.

(** ** Paths *)

Lemma has_slash_app (a b : string) :
  has_slash (a +:+ b) = has_slash a || has_slash b.
Proof.
  induction a as [|c a IH]; [done|].
  change (has_slash (String c a +:+ b))
    with (Ascii.eqb c "/" || has_slash (a +:+ b)).
  rewrite IH. cbn. by rewrite orb_assoc.
Qed.

Lemma string_of_uint_no_slash (d : Decimal.uint) :
  has_slash (NilEmpty.string_of_uint d) = false.
Proof. induction d; cbn; done. Qed.

Lemma py_format_d_no_slash (n : Z) : has_slash (py_format_d n) = false.
Proof.
  unfold py_format_d, NilZero.string_of_int, NilZero.string_of_uint.
  destruct (Z.to_int n) as [d|d]; destruct d; cbn;
    try done; apply string_of_uint_no_slash.
Qed.

Lemma split_slash_no_slash (s : string) :
  has_slash s = false -> split_slash s = [s].
Proof.
  induction s as [|c s IH]; cbn; [done|].
  destruct (Ascii.eqb c "/"); cbn; [done|].
  intros Hs. by rewrite IH.
Qed.

(** A plain file name is a path of one component. *)
Lemma Path_of_name (name : string) :
  has_slash name = false -> is_part name = true ->
  Path_of name = {| path_root := ""; path_parts := [name] |}.
Proof.
  intros Hs Hp. unfold Path_of, splitroot.
  destruct name as [|c name]; [done|].
  cbn in Hs. destruct (Ascii.eqb c "/") eqn:Ec; [done|].
  cbn in Hs. rewrite split_slash_no_slash by (cbn; by rewrite Ec).
  cbn [List.filter]. by rewrite Hp.
Qed.

Lemma path_div_name (p : Path) (name : string) :
  has_slash name = false -> is_part name = true ->
  path_div p name = path_child p name.
Proof.
  intros Hs Hp. unfold path_div. by rewrite (Path_of_name name Hs Hp).
Qed.

Lemma string_app_assoc (a b c : string) : (a +:+ b) +:+ c = a +:+ b +:+ c.
Proof.
  induction a as [|x a IH]; [done|].
  change (String x ((a +:+ b) +:+ c) = String x (a +:+ b +:+ c)). by rewrite IH.
Qed.

Lemma concat_slash_snoc (parts : list string) (name : string) :
  String.concat "/" (parts ++ [name]) = slashed parts +:+ name.
Proof.
  induction parts as [|x parts IH]; [done|].
  cbn [app String.concat slashed].
  destruct (parts ++ [name]) eqn:E.
  - by destruct parts.
  - by rewrite IH, !string_app_assoc.
Qed.

Lemma path_str_child (p : Path) (name : string) :
  path_str (path_child p name) = dir_prefix p +:+ name.
Proof.
  unfold path_str, path_child, dir_prefix. cbn [path_parts path_root].
  rewrite string_app_assoc, <- concat_slash_snoc.
  destruct (path_parts p ++ [name]) eqn:E; [by destruct (path_parts p) | done].
Qed.

Lemma checkpoint_name_plain (n : Z) :
  has_slash (checkpoint_name n) = false /\ is_part (checkpoint_name n) = true.
Proof.
  unfold checkpoint_name. split; [|done].
  by rewrite !has_slash_app, py_format_d_no_slash.
Qed.

(** [str(save_dir / name)] for a checkpoint: the name after the directory
    part. *)
Lemma path_join_checkpoint (dir : string) (n : Z) :
  path_join dir (checkpoint_name n)
  = dir_prefix (Path_of dir) +:+ checkpoint_name n.
Proof.
  destruct (checkpoint_name_plain n) as [Hs Hp].
  unfold path_join. by rewrite (path_div_name _ _ Hs Hp), path_str_child.
Qed.

(** ** The loop body, step by step *)

Section LoopFacts.
Context {F : Type} {HF : PyFloat F} {HT : Torch F}.

Ltac run_script :=
  unfold next_batch, network, network_train, network_eval, zero_grad,
    backward, optimizer_step, add_scalar, save_checkpoint, emit,
    first_group_lr;
  unfold mbind, mret, M_bind, M_ret, bind, ret, gets, lift, modify.

Lemma should_save_due (args : Args F) (i : Z) :
  save_model_interval args <> 0 ->
  should_save args i = Ok (save_due args i).
Proof.
  intros Hn. unfold should_save, py_mod, save_due.
  by rewrite decide_False.
Qed.

Lemma should_print_due (args : Args F) (i : Z) :
  loss_print_interval args <> 0 ->
  should_print args i = Ok (print_due args i).
Proof.
  intros Hn. unfold should_print, py_mod, print_due.
  by rewrite decide_False.
Qed.

Lemma should_save_zero (args : Args F) (i : Z) :
  save_model_interval args = 0 ->
  should_save args i = Raise ZeroDivisionError.
Proof.
  intros Hn. unfold should_save, py_mod. by rewrite decide_True.
Qed.

Lemma train_part_run (args : Args F) (i : Z) (s c : batch) (st : state) :
  source (train_content_iter st) (cursor (train_content_iter st)) = Ok c ->
  train_part args i s st
  = Ok (weighted args (forward Training (grad_enabled st) (decoder_params st) c s),
        after_train args i st s c).
Proof.
  intros Hc. unfold train_part, after_train, train_events, weighted. run_script.
  cbn. rewrite Hc. cbn.
  destruct (forward _ _ _ _ _) as [lc ls]. cbn.
  destruct (adam_step _ _ _ _) as [p' m']. cbn.
  rewrite <- !app_assoc. reflexivity.
Qed.

Lemma val_part_run (args : Args F) (i : Z) (s v : batch) (st : state) :
  source (val_content_iter st) (cursor (val_content_iter st)) = Ok v ->
  val_part args i s st
  = Ok (weighted args (forward Evaluation false (decoder_params st) v s),
        after_val args i st s v).
Proof.
  intros Hv. unfold val_part, after_val, val_events, weighted. run_script.
  cbn. rewrite Hv. cbn.
  destruct (forward _ _ _ _ _) as [lc ls]. cbn.
  rewrite <- !app_assoc. reflexivity.
Qed.

Lemma first_group_lr_adjusted (o : optimizer) (r : F) :
  param_groups o <> [] ->
  first_group_lr {| param_groups := map (fun _ => {| pg_lr := r |}) (param_groups o);
                    opt_state := opt_state o |} = Ok r.
Proof. unfold first_group_lr. cbn. by destruct (param_groups o). Qed.

Lemma iteration_run (args : Args F) (i : Z) (st : state) (r : F) (s c v : batch) :
  lr_schedule (lr args) (lr_decay args) i = Ok r ->
  param_groups (optim st) <> [] ->
  source (style_iter st) (cursor (style_iter st)) = Ok s ->
  source (train_content_iter st) (cursor (train_content_iter st)) = Ok c ->
  source (val_content_iter st) (cursor (val_content_iter st)) = Ok v ->
  loss_print_interval args <> 0 ->
  save_model_interval args <> 0 ->
  iteration args i st
  = Ok (tt, after_iteration args i st r s c v (print_due args i) (save_due args i)).
Proof.
  intros Hr Hg Hs Hc Hv Hp Hsv.
  unfold iteration, adjust_learning_rate.
  unfold next_batch, add_scalar, save_checkpoint, emit.
  unfold mbind, mret, M_bind, M_ret, bind, ret, gets, lift, modify.
  rewrite Hr. cbn -[train_part val_part should_print should_save first_group_lr].
  rewrite (first_group_lr_adjusted _ _ Hg).
  cbn -[train_part val_part should_print should_save].
  rewrite Hs. cbn -[train_part val_part should_print should_save].
  match goal with
  | |- context [train_part args i s ?x] =>
      replace x with (after_head i st r s)
        by (unfold after_head, advance; f_equal; by rewrite <- app_assoc)
  end.
  rewrite (train_part_run args i s c) by exact Hc.
  rewrite (val_part_run args i s v) by exact Hv.
  rewrite (should_print_due args i Hp), (should_save_due args i Hsv).
  unfold after_iteration, iteration_events, tail_events, after_val, after_train,
    after_head.
  destruct (print_due args i), (save_due args i); cbn -[checkpoint_path];
    rewrite <- ?app_assoc; reflexivity.
Qed.

Lemma saved_paths_app (a b : list (event (F:=F))) :
  saved_paths (a ++ b) = saved_paths a ++ saved_paths b.
Proof. unfold saved_paths. apply omap_app. Qed.

Lemma iteration_events_saved (args : Args F) i st r s c v pr sv :
  saved_paths (iteration_events args i st r s c v pr sv)
  = if sv then [checkpoint_path args (i + 1)] else [].
Proof.
  unfold iteration_events, tail_events, train_events, val_events.
  rewrite !saved_paths_app. cbn -[checkpoint_path].
  by destruct pr, sv.
Qed.

Lemma after_iteration_groups (args : Args F) i st r s c v pr sv :
  param_groups (optim st) <> [] ->
  param_groups (optim (after_iteration args i st r s c v pr sv)) <> [].
Proof. cbn. by destruct (param_groups (optim st)). Qed.

Lemma after_iteration_iter (args : Args F) i st r s c v pr sv (x : stream) :
  get_iter x (after_iteration args i st r s c v pr sv) = advance (get_iter x st).
Proof. by destruct x. Qed.

Lemma after_iteration_files (args : Args F) i st r s c v pr sv :
  dom (files (after_iteration args i st r s c v pr sv))
  = dom (files st) ∪ (if sv then {[ checkpoint_path args (i + 1) ]} else ∅).
Proof.
  unfold after_iteration. cbn -[checkpoint_path]. destruct sv.
  - rewrite dom_insert_L. set_solver.
  - set_solver.
Qed.

(** *** The whole loop *)

Lemma for_range_run (args : Args F) (n : nat) : forall (i : Z) (st : state),
  loss_print_interval args <> 0 ->
  save_model_interval args <> 0 ->
  param_groups (optim st) <> [] ->
  rates_ok args i n ->
  pulls_ok st n ->
  exists st' new,
    for_range n i (iteration args) st = Ok (tt, st') /\
    trace st' = trace st ++ new /\
    saved_paths new = map (checkpoint_path args) (due_checkpoints args n i) /\
    dom (files st')
    = dom (files st) ∪ list_to_set (map (checkpoint_path args) (due_checkpoints args n i)) /\
    (forall x, source (get_iter x st') = source (get_iter x st)
               /\ cursor (get_iter x st') = (cursor (get_iter x st) + n)%nat).
Proof.
  induction n as [|n IH]; intros i st Hp Hsv Hg Hr Hpull.
  - exists st, []. cbn. rewrite app_nil_r. repeat split; try done; try lia.
    set_solver.
  - destruct (Hr 0%nat ltac:(lia)) as [r Er].
    rewrite Z.add_0_r in Er.
    destruct (Hpull StyleStream 0%nat ltac:(lia)) as [s Es].
    destruct (Hpull TrainContentStream 0%nat ltac:(lia)) as [c Ec].
    destruct (Hpull ValContentStream 0%nat ltac:(lia)) as [v Ev].
    rewrite Nat.add_0_r in Es, Ec, Ev. cbn [get_iter] in Es, Ec, Ev.
    pose proof (iteration_run args i st r s c v Er Hg Es Ec Ev Hp Hsv) as Hit.
    set (st1 := after_iteration args i st r s c v (print_due args i) (save_due args i)) in *.
    destruct (IH (i + 1) st1 Hp Hsv) as (st' & new & Hrun & Htr & Hsaved & Hdom & Hiter).
    { by apply after_iteration_groups. }
    { intros k Hk. specialize (Hr (S k) ltac:(lia)).
      replace (i + 1 + Z.of_nat k) with (i + Z.of_nat (S k)) by lia. exact Hr. }
    { intros x k Hk. unfold st1. rewrite after_iteration_iter. cbn.
      specialize (Hpull x (S k) ltac:(lia)).
      by rewrite Nat.add_succ_r in Hpull. }
    exists st',
      (iteration_events args i st r s c v (print_due args i) (save_due args i) ++ new).
    split; [|split; [|split; [|split]]].
    + cbn [for_range]. unfold mbind, M_bind, bind. by rewrite Hit.
    + rewrite Htr. unfold st1. cbn [after_iteration trace].
      by rewrite <- app_assoc.
    + rewrite saved_paths_app, iteration_events_saved, Hsaved.
      cbn [due_checkpoints]. rewrite map_app. by destruct (save_due args i).
    + rewrite Hdom. unfold st1. rewrite after_iteration_files.
      cbn [due_checkpoints]. rewrite map_app, list_to_set_app_L.
      destruct (save_due args i); cbn; set_solver.
    + intros x. destruct (Hiter x) as [Hs1 Hc1]. unfold st1 in Hs1, Hc1.
      rewrite after_iteration_iter in Hs1, Hc1. cbn in Hs1, Hc1.
      split; [done | lia].
Qed.

Lemma due_checkpoints_spec (args : Args F) (n : nat) : forall (i j : Z),
  j ∈ due_checkpoints args n i <->
  (i < j <= i + Z.of_nat n /\ save_due args (j - 1) = true).
Proof.
  induction n as [|n IH]; intros i j; cbn [due_checkpoints].
  - rewrite elem_of_nil. lia.
  - rewrite elem_of_app, IH. split.
    + intros [Hj | Hj].
      * destruct (save_due args i) eqn:E.
        -- apply list_elem_of_singleton in Hj as ->.
           replace (i + 1 - 1) with i by lia. split; [lia | done].
        -- by apply elem_of_nil in Hj.
      * split; [lia | tauto].
    + intros [Hr Hd]. destruct (decide (j = i + 1)) as [->|Hne].
      * left. replace (i + 1 - 1) with i in Hd by lia. rewrite Hd.
        by apply list_elem_of_singleton.
      * right. split; [lia | done].
Qed.

Lemma due_checkpoints_NoDup (args : Args F) (n : nat) : forall i : Z,
  NoDup (due_checkpoints args n i).
Proof.
  induction n as [|n IH]; intros i; cbn [due_checkpoints].
  - constructor.
  - destruct (save_due args i); cbn; [|apply IH].
    constructor; [|apply IH].
    rewrite due_checkpoints_spec. lia.
Qed.

Lemma checkpoint_path_name (args : Args F) (n : Z) :
  checkpoint_path args n
  = dir_prefix (Path_of (save_dir args)) +:+ checkpoint_name n.
Proof. apply path_join_checkpoint. Qed.

Lemma checkpoint_path_inj (args : Args F) (a b : Z) :
  checkpoint_path args a = checkpoint_path args b -> a = b.
Proof.
  rewrite !checkpoint_path_name. intros E.
  apply String.app_inj in E. by apply checkpoint_name_inj.
Qed.

Lemma save_due_spec (args : Args F) (i : Z) :
  save_due args i = true <->
  ((i + 1) mod save_model_interval args = 0 \/ i + 1 = max_iter args).
Proof.
  unfold save_due. rewrite orb_true_iff, !bool_decide_eq_true. tauto.
Qed.

(** ** Checkpoints *)

(** C1.  In a run whose iterations all complete (both intervals are
    non-zero, the schedule yields a rate and every pull succeeds), the
    files written by the loop are exactly those of the iterations [i] in
    [[0, max_iter)] with [(i+1) % save_model_interval == 0] or
    [i+1 == max_iter]; the file of iteration [i] is named
    [decoder_iter_<i+1>.pth.tar] inside [save_dir]; and no path is written
    twice.  The path is [save_dir / name] as pathlib spells it: the
    directory part, then the name. *)
Theorem checkpoint_schedule (args : Args F) (st : state) :
  loss_print_interval args <> 0 ->
  save_model_interval args <> 0 ->
  param_groups (optim st) <> [] ->
  rates_ok args 0 (Z.to_nat (max_iter args)) ->
  pulls_ok st (Z.to_nat (max_iter args)) ->
  exists st' new,
    train_loop args st = Ok (tt, st') /\
    trace st' = trace st ++ new /\
    (forall i, 0 <= i < max_iter args ->
       (path_join (save_dir args)
          ("decoder_iter_" +:+ py_format_d (i + 1) +:+ ".pth.tar")
          ∈ saved_paths new
        <-> ((i + 1) mod save_model_interval args = 0 \/ i + 1 = max_iter args))) /\
    (forall n, checkpoint_path args n
               = dir_prefix (Path_of (save_dir args))
                 +:+ "decoder_iter_" +:+ py_format_d n +:+ ".pth.tar") /\
    (forall p, p ∈ saved_paths new ->
       exists i, 0 <= i < max_iter args /\ p = checkpoint_path args (i + 1)) /\
    NoDup (saved_paths new) /\
    dom (files st') = dom (files st) ∪ list_to_set (saved_paths new).
Proof.
  intros Hp Hsv Hg Hr Hpull.
  destruct (for_range_run args (Z.to_nat (max_iter args)) 0 st Hp Hsv Hg Hr Hpull)
    as (st' & new & Hrun & Htr & Hsaved & Hdom & _).
  exists st', new. split; [exact Hrun|]. split; [exact Htr|].
  rewrite Hsaved. split; [|split; [|split; [|split]]].
  - intros i Hi.
    change (path_join (save_dir args)
              ("decoder_iter_" +:+ py_format_d (i + 1) +:+ ".pth.tar"))
      with (checkpoint_path args (i + 1)).
    rewrite <- save_due_spec. rewrite list_elem_of_fmap. split.
    + intros (j & Ej & Hj). apply checkpoint_path_inj in Ej as <-.
      apply due_checkpoints_spec in Hj as [_ Hj].
      by replace (i + 1 - 1) with i in Hj by lia.
    + intros Hd. exists (i + 1). split; [done|].
      apply due_checkpoints_spec. replace (i + 1 - 1) with i by lia.
      split; [lia | done].
  - intros n. apply checkpoint_path_name.
  - intros p Hin. apply list_elem_of_fmap in Hin as (j & -> & Hj).
    apply due_checkpoints_spec in Hj as [Hj _].
    exists (j - 1). split; [lia|]. f_equal. lia.
  - apply NoDup_fmap_2; [|apply due_checkpoints_NoDup].
    intros a b. apply checkpoint_path_inj.
  - exact Hdom.
Qed.

(** ** The style batch of an iteration *)

(** C3.  An iteration that completes pulls exactly one batch from the style
    stream, and that batch is the style argument of its training forward
    pass and of its validation forward pass; the two passes differ in the
    content batch, pulled from the train-content and from the
    validation-content stream. *)
Theorem style_batch_shared (args : Args F) (i : Z) (st : state) (r : F)
    (s c v : batch) :
  lr_schedule (lr args) (lr_decay args) i = Ok r ->
  param_groups (optim st) <> [] ->
  source (style_iter st) (cursor (style_iter st)) = Ok s ->
  source (train_content_iter st) (cursor (train_content_iter st)) = Ok c ->
  source (val_content_iter st) (cursor (val_content_iter st)) = Ok v ->
  loss_print_interval args <> 0 ->
  save_model_interval args <> 0 ->
  exists st' new,
    iteration args i st = Ok (tt, st') /\
    trace st' = trace st ++ new /\
    pulled StyleStream new = [s] /\
    cursor (style_iter st') = S (cursor (style_iter st)) /\
    forward_styles Training new = [s] /\
    forward_styles Evaluation new = [s] /\
    EvForward Training (grad_enabled st) c s ∈ new /\
    EvForward Evaluation false v s ∈ new /\
    pulled TrainContentStream new = [c] /\
    pulled ValContentStream new = [v].
Proof.
  intros Hr Hg Hs Hc Hv Hp Hsv.
  exists (after_iteration args i st r s c v (print_due args i) (save_due args i)),
    (iteration_events args i st r s c v (print_due args i) (save_due args i)).
  split; [by apply iteration_run|]. split; [reflexivity|].
  unfold iteration_events, tail_events, train_events, val_events, pulled,
    forward_styles.
  rewrite !omap_app.
  destruct (print_due args i), (save_due args i); cbn -[checkpoint_path];
    repeat split; try reflexivity;
    repeat (first [apply list_elem_of_here | apply list_elem_of_further]).
Qed.

(** ** The training step *)

(** C4.  In an iteration that completes, the loss that is backpropagated is
    [content_weight * content_loss + style_weight * style_loss] for the
    losses of the forward pass on the train-content batch and the style
    batch; the gradients are cleared right before the backward pass, so the
    gradient the optimizer uses is that of this loss alone; and the
    optimizer steps once, from the parameters the iteration started with. *)
Theorem training_step (args : Args F) (i : Z) (st : state) (r : F)
    (s c v : batch) :
  lr_schedule (lr args) (lr_decay args) i = Ok r ->
  param_groups (optim st) <> [] ->
  source (style_iter st) (cursor (style_iter st)) = Ok s ->
  source (train_content_iter st) (cursor (train_content_iter st)) = Ok c ->
  source (val_content_iter st) (cursor (val_content_iter st)) = Ok v ->
  loss_print_interval args <> 0 ->
  save_model_interval args <> 0 ->
  let losses := forward Training (grad_enabled st) (decoder_params st) c s in
  let total := loss_add (loss_scale (content_weight args) losses.1)
                        (loss_scale (style_weight args) losses.2) in
  let lrs := map (fun _ => r) (param_groups (optim st)) in
  exists st' new before after,
    iteration args i st = Ok (tt, st') /\
    trace st' = trace st ++ new /\
    new = before ++ [EvZeroGrad; EvBackward total; EvOptimizerStep lrs] ++ after /\
    List.filter is_backward new = [EvBackward total] /\
    List.filter is_optimizer_step new = [EvOptimizerStep lrs] /\
    grads st' = Some (loss_grad total) /\
    (decoder_params st', opt_state (optim st'))
    = adam_step lrs (loss_grad total) (decoder_params st) (opt_state (optim st)).
Proof.
  intros Hr Hg Hs Hc Hv Hp Hsv losses total lrs.
  exists (after_iteration args i st r s c v (print_due args i) (save_due args i)),
    (iteration_events args i st r s c v (print_due args i) (save_due args i)),
    [ EvAddScalar "Learning rate" r (i + 1); EvNext StyleStream s;
      EvMode Training; EvNext TrainContentStream c;
      EvForward Training (grad_enabled st) c s ],
    ([ EvAddScalar "train loss_content"
         (loss_item (loss_scale (content_weight args) losses.1)) (i + 1);
       EvAddScalar "train loss_style"
         (loss_item (loss_scale (style_weight args) losses.2)) (i + 1) ]
     ++ val_events args i s v
          (forward Evaluation false
             (adam_step lrs (loss_grad total) (decoder_params st)
                (opt_state (optim st))).1 v s)
     ++ tail_events args i r total
          (weighted args
             (forward Evaluation false
                (adam_step lrs (loss_grad total) (decoder_params st)
                   (opt_state (optim st))).1 v s))
          (adam_step lrs (loss_grad total) (decoder_params st)
             (opt_state (optim st))).1
          (print_due args i) (save_due args i)).
  split; [by apply iteration_run|]. split; [reflexivity|].
  assert (Hl : map pg_lr (map (fun _ => {| pg_lr := r |}) (param_groups (optim st))) = lrs).
  { unfold lrs. by rewrite map_map. }
  unfold iteration_events, train_events, after_train, after_head, weighted.
  cbn -[checkpoint_path val_events tail_events]. rewrite Hl.
  fold losses. fold total.
  split; [reflexivity|].
  unfold val_events, tail_events.
  destruct (print_due args i), (save_due args i); cbn -[checkpoint_path];
    (split; [reflexivity|]); (split; [reflexivity|]);
    unfold after_iteration, after_val, after_train, after_head, weighted;
    cbn -[checkpoint_path]; rewrite ?Hl; fold losses; fold total;
    (split; [reflexivity|]); by destruct (adam_step _ _ _ _).
Qed.

(** ** The validation part *)

(** C5.  The validation part of an iteration changes neither the decoder's
    parameters nor the optimizer (its moment estimates and its learning
    rates) nor the stored gradients: its only forward pass is in evaluation
    mode with gradient tracking off, and it contains no backward pass and
    no optimizer step. *)
Theorem validation_frame (args : Args F) (i : Z) (st : state) (s v : batch) :
  source (val_content_iter st) (cursor (val_content_iter st)) = Ok v ->
  exists val_loss st' new,
    val_part args i s st = Ok (val_loss, st') /\
    decoder_params st' = decoder_params st /\
    optim st' = optim st /\
    grads st' = grads st /\
    grad_enabled st' = grad_enabled st /\
    trace st' = trace st ++ new /\
    EvForward Evaluation false v s ∈ new /\
    (forall m g c' s', EvForward m g c' s' ∈ new -> m = Evaluation /\ g = false) /\
    List.filter is_backward new = [] /\
    List.filter is_optimizer_step new = [].
Proof.
  intros Hv.
  exists (weighted args (forward Evaluation false (decoder_params st) v s)),
    (after_val args i st s v),
    (val_events args i s v (forward Evaluation false (decoder_params st) v s)).
  split; [by apply val_part_run|].
  unfold after_val, val_events. cbn.
  do 5 (split; [reflexivity|]).
  split; [|split; [|split; reflexivity]].
  - do 2 apply list_elem_of_further. apply list_elem_of_here.
  - intros m g c' s' Hin.
    repeat (apply elem_of_cons in Hin as [E|Hin]; [try discriminate E|]).
    + by injection E as -> -> _ _.
    + by apply elem_of_nil in Hin.
Qed.
End LoopFacts.

(** *** The loop on a concrete run: three iterations, a checkpoint every
    second one *)

Lemma demo_rates_ok : rates_ok Demo.args 0 3.
Proof.
  intros k Hk. destruct k as [|[|[|k]]]; try lia; eexists; vm_compute; reflexivity.
Defined.

Lemma demo_pulls_ok : pulls_ok Demo.st0 3.
Proof. intros s k Hk. destruct s; eexists; reflexivity. Defined.

Lemma checkpoint_schedule_witness :
  loss_print_interval Demo.args <> 0 /\
  save_model_interval Demo.args <> 0 /\
  exists (st' : @state Q Demo.torch) (new : list (@event Q Demo.torch)),
    train_loop Demo.args Demo.st0 = Ok (tt, st') /\
    trace st' = trace Demo.st0 ++ new /\
    ("experiments/decoder_iter_2.pth.tar" ∈ saved_paths new <->
       ((1 + 1) mod 2 = 0 \/ 1 + 1 = 3)) /\
    NoDup (saved_paths new).
Proof.
  split; [cbn; lia|]. split; [cbn; lia|].
  destruct (checkpoint_schedule Demo.args Demo.st0)
    as (st' & new & Hrun & Htr & Hiff & _ & _ & Hnd & _).
  - cbn; lia.
  - cbn; lia.
  - cbn; discriminate.
  - exact demo_rates_ok.
  - exact demo_pulls_ok.
  - exists st', new. split; [exact Hrun|]. split; [exact Htr|].
    split; [|exact Hnd]. apply (Hiff 1). cbn; lia.
Defined.

Lemma style_batch_shared_witness :
  exists (st' : @state Q Demo.torch) (new : list (@event Q Demo.torch)),
    iteration Demo.args 0 Demo.st0 = Ok (tt, st') /\
    pulled StyleStream new = [100] /\
    forward_styles Training new = [100] /\
    forward_styles Evaluation new = [100].
Proof.
  destruct (style_batch_shared Demo.args 0 Demo.st0
              ((1 # 10000) / (1 + (1 # 100000) * inject_Z 0))%Q 100 200 300)
    as (st' & new & Hrun & _ & Hs & _ & Ht & Hv & _).
  - reflexivity.
  - cbn; discriminate.
  - reflexivity.
  - reflexivity.
  - reflexivity.
  - cbn; lia.
  - cbn; lia.
  - exists st', new. auto.
Defined.

Lemma training_step_witness :
  exists (st' : @state Q Demo.torch) (new : list (@event Q Demo.torch)),
    iteration Demo.args 0 Demo.st0 = Ok (tt, st') /\
    List.filter is_backward new = [@EvBackward Q Demo.torch (1 * (1 * inject_Z 200) + 1 * (1 * inject_Z 100))%Q] /\
    length (List.filter is_optimizer_step new) = 1%nat.
Proof.
  destruct (training_step Demo.args 0 Demo.st0
              ((1 # 10000) / (1 + (1 # 100000) * inject_Z 0))%Q 100 200 300)
    as (st' & new & before & after & Hrun & _ & _ & Hb & Ho & _).
  - reflexivity.
  - cbn; discriminate.
  - reflexivity.
  - reflexivity.
  - reflexivity.
  - cbn; lia.
  - cbn; lia.
  - exists st', new. split; [exact Hrun|]. split; [exact Hb|]. by rewrite Ho.
Defined.

Lemma validation_frame_witness :
  exists val_loss (st' : @state Q Demo.torch),
    @val_part Q Demo.torch Demo.args 0 100 Demo.st0 = Ok (val_loss, st') /\
    decoder_params st' = decoder_params Demo.st0 /\
    optim st' = optim Demo.st0.
Proof.
  destruct (validation_frame Demo.args 0 Demo.st0 100 300)
    as (l & st' & new & Hrun & Hp & Ho & _).
  - reflexivity.
  - exists l, st'. auto.
Defined.

(** ** The learning-rate schedule *)

Section ScheduleFacts.
Context {F : Type} {HF : PyFloat F} {HT : Torch F}.


Lemma adjust_learning_rate_raises (args : Args F) (o : optimizer) (i : Z) (e : exn) :
  lr_schedule (lr args) (lr_decay args) i = Raise e ->
  adjust_learning_rate args o i = Raise e.
Proof. intros Hr. unfold adjust_learning_rate. by rewrite Hr. Qed.
End ScheduleFacts.

Local Open Scope Q_scope.





(** ** C2 *)


(** Rounding absorbs a small decay: with [decay = 2**-60 > 0] the binary64
    rates at iterations 0 and 1 are the same float. *)
Example lr_schedule_binary64_absorbs :
  let decay := S754_finite false 4503599627370496 (-112) in
  SFltb (S754_zero false) decay = true /\
  lr_schedule (F:=B64.t) B64.one decay 0 = Ok B64.one /\
  lr_schedule (F:=B64.t) B64.one decay 1 = Ok B64.one.
Proof. vm_compute. auto. Qed.



Local Close Scope Q_scope.

(** ** Transforms and datasets *)

Section DataFacts.
Context {HI : Imaging}.

Lemma pipeline_transform_call (im : image) :
  compose_call train_transform (Pil im)
  = Ok (Tens (pil_to_tensor (resize_image (512, 512) im))).
Proof. reflexivity. Qed.

Lemma py_index_in_range {A} (l : list A) (index : Z) :
  let n := Z.of_nat (length l) in
  - n <= index < n ->
  exists a, l !! Z.to_nat (index mod n) = Some a /\ py_index l index = Ok a.
Proof.
  intros n Hr. unfold py_index. fold n.
  assert (Hn : 0 < n) by lia.
  assert (Hj : (if decide (index < 0) then index + n else index) = index mod n).
  { destruct (decide (index < 0)).
    - apply Z.mod_unique with (q := -1); lia.
    - symmetry. apply Z.mod_small. lia. }
  rewrite Hj.
  pose proof (Z.mod_pos_bound index n Hn) as Hb.
  rewrite decide_True by exact Hb.
  destruct (l !! Z.to_nat (index mod n)) as [a|] eqn:E.
  - by exists a.
  - apply lookup_ge_None in E. lia.
Qed.

Lemma py_index_out_of_range {A} (l : list A) (index : Z) :
  let n := Z.of_nat (length l) in
  ~ (- n <= index < n) -> py_index l index = Raise IndexError.
Proof.
  intros n Hr. unfold py_index. fold n.
  destruct (decide (index < 0)); by rewrite decide_False by lia.
Qed.

Lemma image_open_not_IndexError (fs : gmap string fs_node) (path : string) :
  image_open fs path <> Raise IndexError.
Proof.
  unfold image_open. destruct (fs !! path) as [[?|c| |?]|]; try discriminate.
  destruct (decode_rgb c); discriminate.
Qed.

Lemma compose_call_not_IndexError (ts : list transform) : forall x : pic,
  compose_call ts x <> Raise IndexError.
Proof.
  induction ts as [|t ts IH]; intros x; cbn; [discriminate|].
  destruct t, x; cbn; try discriminate; apply IH.
Qed.


(** C7, amended.  Access raises [IndexError] exactly when the index is
    outside [[-length, length)]; an index in [[-length, 0)] counts from the
    end.  For an index in range the file at the captured path is opened and
    decoded and the transform applied, and the outcome is the tensor when
    the file decodes and the decoder's exception when it does not. *)
Theorem dataset_getitem (fs : gmap string fs_node) (ds : FlatFolderDataset)
    (index : Z) :
  let n := FlatFolderDataset_len ds in
  (FlatFolderDataset_getitem fs ds index = Raise IndexError
   <-> ~ (- n <= index < n)) /\
  (- n <= index < n ->
   exists path,
     paths ds !! Z.to_nat (if decide (index < 0) then index + n else index)
     = Some path /\
     FlatFolderDataset_getitem fs ds index
     = (img ← image_open fs path; compose_call (ds_transform ds) (Pil img)) /\
     (forall content im,
        fs !! path = Some (RegularFile content) ->
        decode_rgb content = Some im ->
        ds_transform ds = train_transform ->
        FlatFolderDataset_getitem fs ds index
        = Ok (Tens (pil_to_tensor (resize_image (512, 512) im)))) /\
     (forall content,
        fs !! path = Some (RegularFile content) ->
        decode_rgb content = None ->
        FlatFolderDataset_getitem fs ds index
        = Raise (UnidentifiedImageError path))).
Proof.
  intros n. unfold n, FlatFolderDataset_len.
  assert (Hin : - Z.of_nat (length (paths ds)) <= index < Z.of_nat (length (paths ds)) ->
    exists path,
      paths ds !! Z.to_nat (if decide (index < 0)
                            then index + Z.of_nat (length (paths ds)) else index)
      = Some path /\
      FlatFolderDataset_getitem fs ds index
      = (img ← image_open fs path; compose_call (ds_transform ds) (Pil img))).
  { intros Hr.
    destruct (py_index_in_range (paths ds) index Hr) as (path & Hl & Hp).
    exists path. split.
    - rewrite <- Hl. f_equal. f_equal.
      destruct (decide (index < 0)).
      + apply Z.mod_unique with (q := -1); lia.
      + symmetry. apply Z.mod_small. lia.
    - unfold FlatFolderDataset_getitem. by rewrite Hp. }
  split.
  - split.
    + intros Hraise Hr. destruct (Hin Hr) as (path & _ & Hget).
      rewrite Hget in Hraise. unfold mbind, result_bind, rbind in Hraise.
      destruct (image_open fs path) as [img|e] eqn:Eo.
      * by apply compose_call_not_IndexError in Hraise.
      * injection Hraise as ->. by apply (image_open_not_IndexError fs path).
    + intros Hr. unfold FlatFolderDataset_getitem.
      by rewrite (py_index_out_of_range (paths ds) index Hr).
  - intros Hr. destruct (Hin Hr) as (path & Hl & Hget).
    exists path. split; [exact Hl|]. split; [exact Hget|]. split.
    + intros content im Hf Hd Htf. rewrite Hget. unfold image_open.
      rewrite Hf, Hd, Htf. reflexivity.
    + intros content Hf Hd. rewrite Hget. unfold image_open.
      by rewrite Hf, Hd.
Qed.

(** C9.  The transforms of the train-content, the validation-content and
    the style stream are the same list -- resize to 512x512, then
    conversion to a tensor -- so they map every input to the same result,
    and datasets over them return identical results for the same file. *)
Theorem transforms_agree :
  train_transform = val_transform /\
  train_content_tf = val_content_tf /\
  val_content_tf = style_tf /\
  train_content_tf = [ Resize (512, 512); ToTensor ] /\
  (forall x : pic,
     compose_call train_content_tf x = compose_call val_content_tf x /\
     compose_call val_content_tf x = compose_call style_tf x) /\
  (forall im : image,
     compose_call train_content_tf (Pil im)
     = Ok (Tens (pil_to_tensor (resize_image (512, 512) im)))) /\
  (forall (fs : gmap string fs_node) (d1 d2 : FlatFolderDataset) (i j : Z),
     ds_transform d1 ∈ [train_content_tf; val_content_tf; style_tf] ->
     ds_transform d2 ∈ [train_content_tf; val_content_tf; style_tf] ->
     py_index (paths d1) i = py_index (paths d2) j ->
     FlatFolderDataset_getitem fs d1 i = FlatFolderDataset_getitem fs d2 j).
Proof.
  do 6 (split; [done|]).
  intros fs d1 d2 i j H1 H2 Hp. unfold FlatFolderDataset_getitem.
  rewrite Hp.
  assert (E1 : ds_transform d1 = train_transform).
  { repeat (apply elem_of_cons in H1 as [H1|H1]; [exact H1|]).
    by apply elem_of_nil in H1. }
  assert (E2 : ds_transform d2 = train_transform).
  { repeat (apply elem_of_cons in H2 as [H2|H2]; [exact H2|]).
    by apply elem_of_nil in H2. }
  by rewrite E1, E2.
Qed.
End DataFacts.

(** On a concrete directory: [style] holds two images and a text file. *)



Lemma dataset_negative_index :
  exists ds,
    FlatFolderDataset_init Demo.disk "style" style_tf = Ok ds /\
    FlatFolderDataset_len ds = 3 /\
    ~ (0 <= -2 < 3) /\
    FlatFolderDataset_getitem Demo.disk ds (-2) = Ok (@Tens Demo.imaging "tensor:resized:B") /\
    0 <= 2 < 3 /\
    FlatFolderDataset_getitem Demo.disk ds 2
    = Raise (UnidentifiedImageError "style/notes.txt").
Proof.
  eexists. split; [reflexivity|]. split; [reflexivity|].
  split; [lia|]. split; [reflexivity|]. split; [lia | reflexivity].
Qed.

Lemma dataset_getitem_witness :
  - 3 <= -2 < 3 /\
  FlatFolderDataset_getitem Demo.disk
    {| root := "style";
       paths := ["style/a.jpg"; "style/b.png"; "style/notes.txt"];
       ds_transform := style_tf |} (-2)
  <> Raise IndexError.
Proof.
  split; [lia|]. intros Hraise.
  apply (proj1 (proj1 (dataset_getitem Demo.disk _ (-2))) Hraise).
  unfold FlatFolderDataset_len. simpl. lia.
Defined.

Lemma transforms_agree_witness :
  FlatFolderDataset_getitem Demo.disk
    {| root := "a"; paths := ["style/a.jpg"]; ds_transform := train_content_tf |} 0
  = FlatFolderDataset_getitem Demo.disk
    {| root := "b"; paths := ["x"; "style/a.jpg"]; ds_transform := style_tf |} 1.
Proof.
  apply (proj2 (proj2 (proj2 (proj2 (proj2 (proj2 transforms_agree)))))).
  - apply list_elem_of_here.
  - do 2 apply list_elem_of_further. apply list_elem_of_here.
  - reflexivity.
Defined.

(** ** Seeding *)

Section SeedingFacts.
Context {HR : NumpyRandom}.

Lemma seed_everything_ok (s : Z) (p : process) :
  0 <= s < 2 ^ 32 ->
  exists p', seed_everything (Some s) p = Ok p' /\ seeded_with s p' /\
             cudnn_benchmark p' = false /\ cudnn_deterministic p' = true.
Proof.
  intros Hs. unfold seed_everything. cbn [default].
  rewrite decide_True by exact Hs.
  eexists. split; [reflexivity|]. by repeat split.
Qed.

Lemma seed_everything_rng (s : Z) (p p' : process) :
  seed_everything (Some s) p = Ok p' -> np_random p' = np_seed s.
Proof.
  intros Hs. unfold seed_everything in Hs. cbn [default] in Hs. cbv zeta in Hs.
  case_decide; [|discriminate].
  by injection Hs as <-.
Qed.

(** C10.  The script calls [seed_everything] without an argument, so with
    the default 42: whatever the configuration and whatever the state of
    the process, every run starts by seeding every generator with 42 (and
    that cannot fail); and no option of the command-line schema has a name
    that mentions a seed. *)
Theorem seed_is_42 :
  (forall p : process, seed_everything None p = seed_everything (Some 42) p) /\
  (forall p : process,
     exists p', seed_everything None p = Ok p' /\ seeded_with 42 p') /\
  (forall (F : Type) (HF : PyFloat F) (HT : Torch F) (args : Args F)
          (p : process) (decoder0 : params) (m0 : moments)
          (style_src train_src val_src : nat -> result batch)
          (disk : gmap string params),
     main args p decoder0 m0 style_src train_src val_src disk
     = (p' ← seed_everything (Some 42) (module_prologue p);
        '(_, st) ← train_loop args
                     (initial_state args decoder0 m0 style_src train_src val_src disk);
        Ok (p', st))) /\
  (forall (F : Type) (HF : PyFloat F) (HT : Torch F) (args : Args F)
          (p p' : process) (decoder0 : params) (m0 : moments)
          (style_src train_src val_src : nat -> result batch)
          (disk : gmap string params) (st : state),
     main args p decoder0 m0 style_src train_src val_src disk = Ok (p', st) ->
     seeded_with 42 p') /\
  Forall (fun a => contains "seed" (flag a) = false) parser /\
  length parser = 15%nat.
Proof.
  split; [reflexivity|]. split.
  { intros p. destruct (seed_everything_ok 42 p) as (p' & Hs & Hw & _); [lia|].
    by exists p'. }
  split; [reflexivity|]. split.
  { intros F HF HT args p p' d m s1 s2 s3 disk st Hmain.
    unfold main in Hmain.
    destruct (seed_everything_ok 42 (module_prologue p)) as (q & Hs & Hw & _); [lia|].
    change (seed_everything None (module_prologue p))
      with (seed_everything (Some 42) (module_prologue p)) in Hmain.
    rewrite Hs in Hmain. cbn in Hmain.
    destruct (train_loop _ _) as [[u st']|e]; [|discriminate].
    cbn in Hmain. by injection Hmain as <- _. }
  split; [|reflexivity].
  repeat (constructor; [reflexivity|]). constructor.
Qed.
End SeedingFacts.

Lemma seed_is_42_witness :
  exists p' st,
    @main Q _ Demo.torch Demo.numpy Demo.args Demo.proc 1%Q 0%nat
      (Demo.src 100) (Demo.src 200) (Demo.src 300) ∅ = Ok (p', st) /\
    seeded_with 42 p'.
Proof.
  destruct (@main Q _ Demo.torch Demo.numpy Demo.args Demo.proc 1%Q 0%nat
              (Demo.src 100) (Demo.src 200) (Demo.src 300) ∅) as [[p' st]|e] eqn:E.
  - exists p', st. split; [reflexivity|].
    exact (proj1 (proj2 (proj2 (proj2 seed_is_42))) Q _ Demo.torch Demo.args
             Demo.proc p' 1%Q 0%nat (Demo.src 100) (Demo.src 200) (Demo.src 300) ∅ st E).
  - vm_compute in E. discriminate E.
Defined.

(** ** Sampled indices *)

Section SamplingFacts.
Context {HR : NumpyRandom}.

Lemma sample_step_deterministic (st : sampling_state) (l1 l2 : stream * nat)
    (st1 st2 : sampling_state) :
  sample_step st l1 st1 -> sample_step st l2 st2 -> l1.1 = l2.1 ->
  l1 = l2 /\ st1 = st2.
Proof.
  intros H1 H2 Hs.
  inversion H1 as [? s1 idx1 sm1 g1 E1]; subst.
  inversion H2 as [? s2 idx2 sm2 g2 E2]; subst.
  cbn in Hs. subst s2. rewrite E1 in E2. by injection E2 as -> -> ->.
Qed.

Lemma sample_run_deterministic (st : sampling_state) (ss : list stream)
    (tr1 : list (stream * nat)) (st1 : sampling_state) :
  sample_run st ss tr1 st1 ->
  forall tr2 st2, sample_run st ss tr2 st2 -> tr1 = tr2 /\ st1 = st2.
Proof.
  induction 1 as [st | st s ss idx st' tr st'' Hstep Hrun IH]; intros tr2 st2 H2.
  - by inversion H2.
  - inversion H2 as [| ? ? ? idx2 st2' tr2' ? Hstep2 Hrun2]; subst.
    destruct (sample_step_deterministic _ _ _ _ _ Hstep Hstep2 eq_refl) as [El Est].
    injection El as ->. subst st2'.
    destruct (IH _ _ Hrun2) as [-> ->]. done.
Qed.

(** The executable sampler computes a run. *)
Lemma sample_all_run (ss : list stream) : forall st tr st',
  sample_all st ss = Ok (tr, st') -> sample_run st ss tr st'.
Proof.
  induction ss as [|s ss IH]; intros st tr st' Hall; cbn in Hall.
  - injection Hall as <- <-. constructor.
  - destruct (sampler_next (get_sampler s st) (shared_rng st))
      as [[[idx sm'] g']|e] eqn:En; [|discriminate]. cbn in Hall.
    destruct (sample_all (put_sampler s sm' g' st) ss) as [[tr' st1]|e] eqn:Ea;
      [|discriminate]. cbn in Hall. injection Hall as <- <-.
    econstructor; [by constructor | by apply IH].
Qed.

Lemma sampling_init_seed_only (s : Z) (p1 p2 : process) (a b c : nat)
    (st1 st2 : sampling_state) :
  sampling_init s p1 a b c = Ok st1 ->
  sampling_init s p2 a b c = Ok st2 ->
  st1 = st2.
Proof.
  unfold sampling_init. intros H1 H2.
  destruct (seed_everything (Some s) p1) as [q1|] eqn:E1; [|discriminate].
  destruct (seed_everything (Some s) p2) as [q2|] eqn:E2; [|discriminate].
  apply seed_everything_rng in E1, E2. cbn in H1, H2.
  destruct (InfiniteSamplerWrapper a); [|discriminate].
  destruct (InfiniteSamplerWrapper b); [|discriminate].
  destruct (InfiniteSamplerWrapper c); [|discriminate].
  cbn in H1, H2. rewrite E1 in H1. rewrite E2 in H2. congruence.
Qed.

(** C8.  Two runs of the pipeline seeded with the same [s] over datasets
    of the same sizes, with the same batch size and number of iterations,
    sample the same sequence of indices from the samplers, whatever state
    the generators of either process were in before seeding. *)
Theorem sampling_deterministic (s : Z) (p1 p2 : process)
    (n_train n_val n_style batch_size iterations : nat)
    (tr1 tr2 : list (stream * nat)) :
  pipeline_samples s p1 n_train n_val n_style batch_size iterations tr1 ->
  pipeline_samples s p2 n_train n_val n_style batch_size iterations tr2 ->
  tr1 = tr2.
Proof.
  intros (a0 & a1 & Ha & Hra) (b0 & b1 & Hb & Hrb).
  rewrite (sampling_init_seed_only _ _ _ _ _ _ _ _ Ha Hb) in Hra.
  by destruct (sample_run_deterministic _ _ _ _ Hra _ _ Hrb).
Qed.
End SamplingFacts.

Lemma demo_pipeline_samples (p : process (H:=Demo.numpy)) :
  pipeline_samples 42 p 3 2 1 2 2
    [ (StyleStream, 0%nat); (StyleStream, 0%nat);
      (TrainContentStream, 2%nat); (TrainContentStream, 0%nat);
      (ValContentStream, 1%nat); (ValContentStream, 0%nat);
      (StyleStream, 0%nat); (StyleStream, 0%nat);
      (TrainContentStream, 1%nat); (TrainContentStream, 0%nat);
      (ValContentStream, 1%nat); (ValContentStream, 0%nat) ].
Proof.
  eexists _, _. split; [reflexivity|].
  apply sample_all_run. vm_compute. reflexivity.
Defined.

Lemma sampling_deterministic_witness :
  let tr := [ (StyleStream, 0%nat); (StyleStream, 0%nat);
              (TrainContentStream, 2%nat); (TrainContentStream, 0%nat);
              (ValContentStream, 1%nat); (ValContentStream, 0%nat);
              (StyleStream, 0%nat); (StyleStream, 0%nat);
              (TrainContentStream, 1%nat); (TrainContentStream, 0%nat);
              (ValContentStream, 1%nat); (ValContentStream, 0%nat) ] in
  pipeline_samples 42 Demo.proc_used 3 2 1 2 2 tr /\
  pipeline_samples 42 Demo.proc 3 2 1 2 2 tr /\
  tr = tr.
Proof.
  intros tr.
  split; [exact (demo_pipeline_samples Demo.proc_used)|].
  split; [exact (demo_pipeline_samples Demo.proc)|].
  exact (sampling_deterministic 42 Demo.proc_used Demo.proc 3 2 1 2 2 tr tr
           (demo_pipeline_samples Demo.proc_used)
           (demo_pipeline_samples Demo.proc)).
Defined.

(** * Further properties of the loop *)

Section LoopEdges.
Context {F : Type} {HF : PyFloat F} {HT : Torch F}.

Lemma for_range_app (body : Z -> M unit) (a b : nat) : forall (i : Z) (st : state),
  for_range (a + b) i body st
  = match for_range a i body st with
    | Ok (_, st') => for_range b (i + Z.of_nat a) body st'
    | Raise e => Raise e
    end.
Proof.
  induction a as [|a IH]; intros i st.
  - cbn. by rewrite Z.add_0_r.
  - cbn [for_range Nat.add]. unfold mbind, M_bind, bind.
    destruct (body i st) as [[u st1]|e]; [|done].
    rewrite IH. replace (i + 1 + Z.of_nat a) with (i + Z.of_nat (S a)) by lia.
    reflexivity.
Qed.

Lemma for_range_raises (body : Z -> M unit) (k m : nat) (i : Z) (st st_k : state)
    (e : exn) :
  for_range k i body st = Ok (tt, st_k) ->
  body (i + Z.of_nat k) st_k = Raise e ->
  for_range (k + S m) i body st = Raise e.
Proof.
  intros Hk He. rewrite for_range_app, Hk. cbn [for_range].
  unfold mbind, M_bind, bind. by rewrite He.
Qed.

(** X1.  [range(max_iter)] is empty for [max_iter <= 0]: the loop returns
    at once, with the state as it was -- no batch pulled, no step, and no
    checkpoint, not even the one of the "final" iteration -- and it does so
    even where an interval of zero would make an iteration raise. *)
Theorem no_iterations (args : Args F) (st : state) :
  max_iter args <= 0 ->
  train_loop args st = Ok (tt, st).
Proof.
  intros Hn. unfold train_loop.
  by replace (Z.to_nat (max_iter args)) with 0%nat by lia.
Qed.
End LoopEdges.

Lemma no_iterations_witness :
  let args : Args Q :=
    {| train_content_dir := "c"; val_content_dir := "v"; style_dir := "s";
       vgg := "w"; save_dir := "out"; log_dir := "log";
       lr := 1%Q; lr_decay := 0%Q; max_iter := 0; batch_size := 8;
       style_weight := 1%Q; content_weight := 1%Q; n_threads := 0;
       save_model_interval := 0; loss_print_interval := 0 |} in
  max_iter args <= 0 /\ train_loop args Demo.st0 = Ok (tt, Demo.st0).
Proof.
  intros args. split; [cbn; lia|].
  apply (no_iterations args Demo.st0). cbn. lia.
Defined.

Section LoopRaises.
Context {F : Type} {HF : PyFloat F} {HT : Torch F}.

Lemma should_print_zero (args : Args F) (i : Z) :
  loss_print_interval args = 0 ->
  should_print args i = Raise ZeroDivisionError.
Proof.
  intros Hn. unfold should_print, py_mod. by rewrite decide_True.
Qed.

(** One iteration whose pulls succeed, up to the two interval tests. *)
Lemma iteration_unfold (args : Args F) (i : Z) (st : state) (r : F) (s c v : batch) :
  lr_schedule (lr args) (lr_decay args) i = Ok r ->
  param_groups (optim st) <> [] ->
  source (style_iter st) (cursor (style_iter st)) = Ok s ->
  source (train_content_iter st) (cursor (train_content_iter st)) = Ok c ->
  source (val_content_iter st) (cursor (val_content_iter st)) = Ok v ->
  iteration args i st
  = match should_print args i with
    | Raise e => Raise e
    | Ok pr =>
        match should_save args i with
        | Raise e => Raise e
        | Ok sv => Ok (tt, after_iteration args i st r s c v pr sv)
        end
    end.
Proof.
  intros Hr Hg Hs Hc Hv.
  unfold iteration, adjust_learning_rate.
  unfold next_batch, add_scalar, save_checkpoint, emit.
  unfold mbind, mret, M_bind, M_ret, bind, ret, gets, lift, modify.
  rewrite Hr. cbn -[train_part val_part should_print should_save first_group_lr].
  rewrite (first_group_lr_adjusted _ _ Hg).
  cbn -[train_part val_part should_print should_save].
  rewrite Hs. cbn -[train_part val_part should_print should_save].
  match goal with
  | |- context [train_part args i s ?x] =>
      replace x with (after_head i st r s)
        by (unfold after_head, advance; f_equal; by rewrite <- app_assoc)
  end.
  rewrite (train_part_run args i s c) by exact Hc.
  rewrite (val_part_run args i s v) by exact Hv.
  destruct (should_print args i) as [pr|e]; [|reflexivity].
  destruct (should_save args i) as [sv|e];
    [|by destruct pr].
  unfold after_iteration, iteration_events, tail_events, after_val, after_train,
    after_head.
  destruct pr, sv; cbn -[checkpoint_path];
    rewrite <- ?app_assoc; reflexivity.
Qed.

(** X2.  An interval of zero is a division by zero: with
    [--loss_print_interval 0] or [--save_model_interval 0] the first
    iteration runs its training step and its validation pass and then
    raises [ZeroDivisionError] at the interval test, so the run ends there
    without a checkpoint. *)
Theorem zero_interval_raises (args : Args F) (st : state) :
  0 < max_iter args ->
  loss_print_interval args = 0 \/ save_model_interval args = 0 ->
  param_groups (optim st) <> [] ->
  is_Ok (lr_schedule (lr args) (lr_decay args) 0) ->
  (forall s, is_Ok (source (get_iter s st) (cursor (get_iter s st)))) ->
  train_loop args st = Raise ZeroDivisionError.
Proof.
  intros Hn Hz Hg [r Hr] Hpull.
  destruct (Hpull StyleStream) as [s Hs].
  destruct (Hpull TrainContentStream) as [c Hc].
  destruct (Hpull ValContentStream) as [v Hv].
  cbn [get_iter] in Hs, Hc, Hv.
  unfold train_loop.
  destruct (Z.to_nat (max_iter args)) as [|m] eqn:Em; [lia|].
  cbn [for_range]. unfold mbind, M_bind, bind.
  rewrite (iteration_unfold args 0 st r s c v Hr Hg Hs Hc Hv).
  destruct (decide (loss_print_interval args = 0)) as [Hp|Hp].
  - by rewrite (should_print_zero args 0 Hp).
  - destruct Hz as [Hz|Hz]; [done|].
    by rewrite (should_print_due args 0 Hp), (should_save_zero args 0 Hz).
Qed.

Lemma for_range_ext (body1 body2 : Z -> M unit) (n : nat) :
  (forall j st, body1 j st = body2 j st) ->
  forall i st, for_range n i body1 st = for_range n i body2 st.
Proof.
  intros Hext. induction n as [|n IH]; intros i st; [done|].
  cbn [for_range]. unfold mbind, M_bind, bind. rewrite Hext.
  destruct (body2 i st) as [[u st']|e]; [apply IH | done].
Qed.

Lemma should_save_negated (args : Args F) (k i : Z) :
  should_save (with_save_model_interval (- k) args) i
  = should_save (with_save_model_interval k args) i.
Proof.
  unfold should_save, py_mod. cbn.
  destruct (decide (k = 0)) as [->|Hk]; [done|].
  rewrite !decide_False by lia. cbn. do 3 f_equal.
  apply bool_decide_ext.
  rewrite !Z.mod_divide by lia. apply Z.divide_opp_l.
Qed.

(** X3.  Python's [%] follows the sign of the divisor, and a multiple of
    [k] is a multiple of [-k]: a negative [--save_model_interval] runs
    exactly like its absolute value. *)
Theorem negative_save_interval (args : Args F) (k : Z) (st : state) :
  train_loop (with_save_model_interval (- k) args) st
  = train_loop (with_save_model_interval k args) st.
Proof.
  unfold train_loop. cbn [max_iter with_save_model_interval].
  apply for_range_ext. intros j s. unfold iteration.
  by rewrite should_save_negated.
Qed.
End LoopRaises.

Lemma zero_interval_raises_witness :
  let args := with_save_model_interval 0 Demo.args in
  0 < max_iter args /\ save_model_interval args = 0 /\
  train_loop args Demo.st0 = Raise ZeroDivisionError.
Proof.
  intros args. split; [cbn; lia|]. split; [reflexivity|].
  apply (zero_interval_raises args Demo.st0).
  - cbn; lia.
  - right. reflexivity.
  - cbn; discriminate.
  - eexists. vm_compute. reflexivity.
  - intros s. destruct s; eexists; reflexivity.
Defined.

Section LoopInvariants.
Context {F : Type} {HF : PyFloat F} {HT : Torch F}.

(** A property that every completed iteration carries one step further
    holds at the end of the loop. *)
Lemma for_range_inv (args : Args F) (n : nat) :
  forall (P : nat -> state -> Prop) (i : Z) (st : state),
  loss_print_interval args <> 0 ->
  save_model_interval args <> 0 ->
  param_groups (optim st) <> [] ->
  rates_ok args i n ->
  pulls_ok st n ->
  P 0%nat st ->
  (forall (k : nat) (st_k : state) (r : F) (s c v : batch),
     (k < n)%nat -> P k st_k ->
     param_groups (optim st_k) <> [] ->
     (forall x, source (get_iter x st_k) = source (get_iter x st)
                /\ cursor (get_iter x st_k) = (cursor (get_iter x st) + k)%nat) ->
     lr_schedule (lr args) (lr_decay args) (i + Z.of_nat k) = Ok r ->
     source (style_iter st_k) (cursor (style_iter st_k)) = Ok s ->
     source (train_content_iter st_k) (cursor (train_content_iter st_k)) = Ok c ->
     source (val_content_iter st_k) (cursor (val_content_iter st_k)) = Ok v ->
     iteration args (i + Z.of_nat k) st_k
     = Ok (tt, after_iteration args (i + Z.of_nat k) st_k r s c v
                 (print_due args (i + Z.of_nat k)) (save_due args (i + Z.of_nat k))) ->
     P (S k) (after_iteration args (i + Z.of_nat k) st_k r s c v
                (print_due args (i + Z.of_nat k)) (save_due args (i + Z.of_nat k)))) ->
  exists st',
    for_range n i (iteration args) st = Ok (tt, st') /\
    P n st' /\
    param_groups (optim st') <> [] /\
    (forall x, source (get_iter x st') = source (get_iter x st)
               /\ cursor (get_iter x st') = (cursor (get_iter x st) + n)%nat).
Proof.
  induction n as [|n IH]; intros P i st Hp Hsv Hg Hr Hpull H0 Hstep.
  - exists st. repeat split; try done; lia.
  - destruct (Hr 0%nat ltac:(lia)) as [r Er].
    destruct (Hpull StyleStream 0%nat ltac:(lia)) as [s Es].
    destruct (Hpull TrainContentStream 0%nat ltac:(lia)) as [c Ec].
    destruct (Hpull ValContentStream 0%nat ltac:(lia)) as [v Ev].
    rewrite Nat.add_0_r in Es, Ec, Ev. cbn [get_iter] in Es, Ec, Ev.
    assert (Er' := Er). rewrite Z.add_0_r in Er'.
    pose proof (iteration_run args i st r s c v Er' Hg Es Ec Ev Hp Hsv) as Hit.
    assert (H1 := Hstep 0%nat st r s c v ltac:(lia) H0 Hg
                    ltac:(intros x; split; [done | lia]) Er Es Ec Ev).
    change (Z.of_nat 0) with 0 in H1. rewrite Z.add_0_r in H1.
    specialize (H1 Hit).
    set (st1 := after_iteration args i st r s c v (print_due args i) (save_due args i)) in *.
    assert (Hiter1 : forall x, get_iter x st1 = advance (get_iter x st))
      by (intros x; apply after_iteration_iter).
    destruct (IH (fun k => P (S k)) (i + 1) st1 Hp Hsv) as (st' & Hrun & HP & Hg' & Hiter).
    { by apply after_iteration_groups. }
    { intros k Hk. specialize (Hr (S k) ltac:(lia)).
      replace (i + 1 + Z.of_nat k) with (i + Z.of_nat (S k)) by lia. exact Hr. }
    { intros x k Hk. rewrite Hiter1. cbn.
      specialize (Hpull x (S k) ltac:(lia)).
      by rewrite Nat.add_succ_r in Hpull. }
    { exact H1. }
    { intros k st_k r' s' c' v' Hk HPk Hgk Hik Hr' Hs' Hc' Hv' Hit'.
      replace (i + 1 + Z.of_nat k) with (i + Z.of_nat (S k)) in * by lia.
      apply (Hstep (S k)); try done; try lia.
      intros x. destruct (Hik x) as [Hsx Hcx]. rewrite Hiter1 in Hsx, Hcx.
      cbn in Hsx, Hcx. split; [done | lia]. }
    exists st'. split; [|split; [exact HP|split; [exact Hg'|]]].
    + cbn [for_range]. unfold mbind, M_bind, bind. by rewrite Hit.
    + intros x. destruct (Hiter x) as [Hsx Hcx]. rewrite Hiter1 in Hsx, Hcx.
      cbn in Hsx, Hcx. split; [done | lia].
Qed.
End LoopInvariants.

Section LoopFailures.
Context {F : Type} {HF : PyFloat F} {HT : Torch F}.

Lemma iteration_pull_raises (args : Args F) (i : Z) (st : state) (r : F)
    (x : stream) (e : exn) :
  lr_schedule (lr args) (lr_decay args) i = Ok r ->
  param_groups (optim st) <> [] ->
  (forall y, pulled_before y x = true ->
     is_Ok (source (get_iter y st) (cursor (get_iter y st)))) ->
  source (get_iter x st) (cursor (get_iter x st)) = Raise e ->
  iteration args i st = Raise e.
Proof.
  intros Hr Hg Hbefore Hx.
  unfold iteration, adjust_learning_rate.
  unfold next_batch, add_scalar, emit.
  unfold mbind, mret, M_bind, M_ret, bind, ret, gets, lift, modify.
  rewrite Hr. cbn -[train_part val_part should_print should_save first_group_lr].
  rewrite (first_group_lr_adjusted _ _ Hg).
  cbn -[train_part val_part should_print should_save].
  destruct x; cbn [get_iter] in Hx.
  - by rewrite Hx.
  - destruct (Hbefore StyleStream eq_refl) as [s Hs]. cbn [get_iter] in Hs.
    rewrite Hs. cbn -[train_part val_part should_print should_save].
    unfold train_part, network_train, next_batch, emit.
    unfold mbind, mret, M_bind, M_ret, bind, ret, gets, lift, modify.
    cbn. by rewrite Hx.
  - destruct (Hbefore StyleStream eq_refl) as [s Hs].
    destruct (Hbefore TrainContentStream eq_refl) as [c Hc].
    cbn [get_iter] in Hs, Hc.
    rewrite Hs. cbn -[train_part val_part should_print should_save].
    match goal with
    | |- context [train_part args i s ?y] =>
        replace y with (after_head i st r s)
          by (unfold after_head, advance; f_equal; by rewrite <- app_assoc)
    end.
    rewrite (train_part_run args i s c) by exact Hc.
    unfold val_part, network_eval, next_batch, emit.
    unfold mbind, mret, M_bind, M_ret, bind, ret, gets, lift, modify.
    cbn. by rewrite Hx.
Qed.

(** X4.  There is no retry and no skipping: when a pull from a loader
    raises in iteration [k] -- the pulls of the iterations before and the
    pulls that come earlier in iteration [k] having succeeded -- the whole
    run ends with that exception. *)
Theorem failed_pull_aborts (args : Args F) (st : state) (k : nat) (x : stream)
    (e : exn) :
  (k < Z.to_nat (max_iter args))%nat ->
  loss_print_interval args <> 0 ->
  save_model_interval args <> 0 ->
  param_groups (optim st) <> [] ->
  rates_ok args 0 (S k) ->
  pulls_ok st k ->
  (forall y, pulled_before y x = true ->
     is_Ok (source (get_iter y st) (cursor (get_iter y st) + k))) ->
  source (get_iter x st) (cursor (get_iter x st) + k) = Raise e ->
  train_loop args st = Raise e.
Proof.
  intros Hk Hp Hsv Hg Hr Hpull Hbefore Hx.
  destruct (for_range_inv args k (fun _ _ => True) 0 st Hp Hsv Hg)
    as (st_k & Hrun & _ & Hgk & Hiter); try done.
  { intros j Hj. apply Hr. lia. }
  destruct (Hr k ltac:(lia)) as [r Er].
  unfold train_loop.
  replace (Z.to_nat (max_iter args))
    with (k + S (Z.to_nat (max_iter args) - S k))%nat by lia.
  apply (for_range_raises _ _ _ _ _ st_k e Hrun).
  apply (iteration_pull_raises args _ st_k r x e Er Hgk).
  - intros y Hy. destruct (Hiter y) as [-> ->]. by apply Hbefore.
  - destruct (Hiter x) as [-> ->]. exact Hx.
Qed.
End LoopFailures.

Lemma failed_pull_aborts_witness :
  let st : @state Q Demo.torch :=
    @initial_state Q Demo.torch Demo.args 1%Q 0%nat (Demo.src 100)
      (fun n => if decide (n = 1)%nat
                then Raise (UnidentifiedImageError "content/train/x.jpg")
                else Ok 7)
      (Demo.src 300) ∅ in
  train_loop Demo.args st = Raise (UnidentifiedImageError "content/train/x.jpg").
Proof.
  intros st.
  apply (failed_pull_aborts Demo.args st 1 TrainContentStream).
  - cbn; lia.
  - cbn; lia.
  - cbn; lia.
  - cbn; discriminate.
  - intros j Hj. apply demo_rates_ok. lia.
  - intros y j Hj. assert (j = 0)%nat as -> by lia.
    destruct y; eexists; reflexivity.
  - intros y Hy. destruct y; try discriminate Hy. eexists; reflexivity.
  - reflexivity.
Defined.

Section LoopTraces.
Context {F : Type} {HF : PyFloat F} {HT : Torch F}.

Lemma iteration_events_pulled (args : Args F) i st r s c v pr sv (x : stream) :
  pulled x (iteration_events args i st r s c v pr sv)
  = [ match x with
      | StyleStream => s
      | TrainContentStream => c
      | ValContentStream => v
      end ].
Proof.
  unfold iteration_events, tail_events, train_events, val_events, pulled.
  rewrite !omap_app. by destruct pr, sv, x.
Qed.

Lemma iteration_events_step_rates (args : Args F) i st r s c v pr sv :
  step_rates (iteration_events args i st r s c v pr sv)
  = [ replicate (length (param_groups (optim st))) r ].
Proof.
  unfold iteration_events, tail_events, train_events, val_events, step_rates.
  rewrite !omap_app. cbn -[checkpoint_path].
  assert (Hl : map pg_lr (map (fun _ => {| pg_lr := r |}) (param_groups (optim st)))
               = replicate (length (param_groups (optim st))) r).
  { induction (param_groups (optim st)) as [|g gs IH]; cbn; [done | by rewrite IH]. }
  rewrite Hl. by destruct pr, sv.
Qed.

Lemma iteration_events_logged_rate (args : Args F) i st r s c v pr sv :
  logged "Learning rate" (iteration_events args i st r s c v pr sv) = [ (r, i + 1) ].
Proof.
  unfold iteration_events, tail_events, train_events, val_events, logged.
  rewrite !omap_app. by destruct pr, sv.
Qed.

Lemma after_iteration_group_count (args : Args F) i st r s c v pr sv :
  length (param_groups (optim (after_iteration args i st r s c v pr sv)))
  = length (param_groups (optim st)).
Proof. cbn. by rewrite length_map. Qed.

(** X5.  The three loaders advance in lockstep: in a run whose iterations
    all complete, every stream is pulled exactly once per iteration, the
    batches pulled from a stream are the next [max_iter] batches of its
    loader in order, and each iterator ends [max_iter] positions further. *)
Theorem streams_in_lockstep (args : Args F) (st : state) :
  loss_print_interval args <> 0 ->
  save_model_interval args <> 0 ->
  param_groups (optim st) <> [] ->
  rates_ok args 0 (Z.to_nat (max_iter args)) ->
  pulls_ok st (Z.to_nat (max_iter args)) ->
  exists st' new,
    train_loop args st = Ok (tt, st') /\
    trace st' = trace st ++ new /\
    forall x : stream,
      source (get_iter x st') = source (get_iter x st) /\
      cursor (get_iter x st')
      = (cursor (get_iter x st) + Z.to_nat (max_iter args))%nat /\
      Ok <$> pulled x new
      = source (get_iter x st)
        <$> seq (cursor (get_iter x st)) (Z.to_nat (max_iter args)).
Proof.
  intros Hp Hsv Hg Hr Hpull.
  destruct (for_range_inv args (Z.to_nat (max_iter args))
              (fun k st_k => exists new,
                 trace st_k = trace st ++ new /\
                 forall x, Ok <$> pulled x new
                           = source (get_iter x st) <$> seq (cursor (get_iter x st)) k)
              0 st Hp Hsv Hg Hr Hpull)
    as (st' & Hrun & (new & Htr & Hnew) & _ & Hiter).
  { exists []. split; [by rewrite app_nil_r | done]. }
  { intros k st_k r s c v Hk (new & Htr & Hnew) Hgk Hik _ Hs Hc Hv _.
    eexists (new ++ _). split.
    - cbn [after_iteration trace]. rewrite Htr, <- app_assoc. reflexivity.
    - intros x. unfold pulled at 1. rewrite omap_app. fold (pulled x new).
      fold (pulled x (iteration_events args (0 + Z.of_nat k) st_k r s c v
                        (print_due args (0 + Z.of_nat k))
                        (save_due args (0 + Z.of_nat k)))).
      rewrite iteration_events_pulled, fmap_app, Hnew, seq_S, fmap_app.
      f_equal. cbn. f_equal.
      destruct (Hik x) as [Hsx Hcx].
      destruct x; cbn [get_iter] in *; rewrite <- Hsx, <- Hcx; done. }
  exists st', new. split; [exact Hrun|]. split; [exact Htr|].
  intros x. destruct (Hiter x) as [Hsx Hcx]. by repeat split.
Qed.

(** X6.  The optimizer steps once per iteration, and the step of iteration
    [i] uses the rate of the schedule at [i] in every parameter group: it
    is the rate logged as "Learning rate" at step [i + 1]. *)
Theorem steps_follow_schedule (args : Args F) (st : state) :
  loss_print_interval args <> 0 ->
  save_model_interval args <> 0 ->
  param_groups (optim st) <> [] ->
  rates_ok args 0 (Z.to_nat (max_iter args)) ->
  pulls_ok st (Z.to_nat (max_iter args)) ->
  exists st' new rates,
    train_loop args st = Ok (tt, st') /\
    trace st' = trace st ++ new /\
    length rates = Z.to_nat (max_iter args) /\
    (forall (k : nat) (r : F), rates !! k = Some r ->
       lr_schedule (lr args) (lr_decay args) (Z.of_nat k) = Ok r) /\
    step_rates new
    = (fun r => replicate (length (param_groups (optim st))) r) <$> rates /\
    logged "Learning rate" new
    = imap (fun k r => (r, Z.of_nat k + 1)) rates /\
    length (List.filter is_optimizer_step new) = Z.to_nat (max_iter args).
Proof.
  intros Hp Hsv Hg Hr Hpull.
  set (G := length (param_groups (optim st))).
  destruct (for_range_inv args (Z.to_nat (max_iter args))
              (fun k st_k => exists new rates,
                 trace st_k = trace st ++ new /\
                 length (param_groups (optim st_k)) = G /\
                 length rates = k /\
                 (forall (j : nat) (r : F), rates !! j = Some r ->
                    lr_schedule (lr args) (lr_decay args) (Z.of_nat j) = Ok r) /\
                 step_rates new = (fun r => replicate G r) <$> rates /\
                 logged "Learning rate" new
                 = imap (fun j r => (r, Z.of_nat j + 1)) rates /\
                 length (List.filter is_optimizer_step new) = k)
              0 st Hp Hsv Hg Hr Hpull)
    as (st' & Hrun & (new & rates & Htr & _ & Hlen & Hrates & Hsteps & Hlog & Hcount) & _).
  { exists [], []. split; [by rewrite app_nil_r|]. by repeat split. }
  { intros k st_k r s c v Hk (new & rates & Htr & HG & Hlen & Hrates & Hsteps & Hlog & Hcount)
      Hgk _ Er _ _ _ _.
    rewrite Z.add_0_l in *.
    exists (new ++ iteration_events args (Z.of_nat k) st_k r s c v
                     (print_due args (Z.of_nat k)) (save_due args (Z.of_nat k))),
      (rates ++ [r]).
    split; [cbn [after_iteration trace]; by rewrite Htr, <- app_assoc|].
    split; [by rewrite after_iteration_group_count|].
    split; [rewrite length_app; cbn; lia|].
    split; [|split; [|split]].
    - intros j r' Hj. apply lookup_app_Some in Hj as [Hj|[Hge Hj]].
      + by apply Hrates.
      + rewrite Hlen in Hj.
        apply list_lookup_singleton_Some in Hj as [Hj0 ->].
        by replace j with k by lia.
    - unfold step_rates. rewrite omap_app. fold (step_rates new).
      fold (step_rates (iteration_events args (Z.of_nat k) st_k r s c v
                          (print_due args (Z.of_nat k)) (save_due args (Z.of_nat k)))).
      by rewrite iteration_events_step_rates, Hsteps, HG, fmap_app.
    - unfold logged. rewrite omap_app. fold (logged "Learning rate" new).
      fold (logged "Learning rate"
              (iteration_events args (Z.of_nat k) st_k r s c v
                 (print_due args (Z.of_nat k)) (save_due args (Z.of_nat k)))).
      rewrite iteration_events_logged_rate, Hlog, imap_app, Hlen. cbn.
      by rewrite Nat.add_0_r.
    - rewrite List.filter_app, length_app, Hcount.
      unfold iteration_events, tail_events, train_events, val_events.
      rewrite !List.filter_app.
      destruct (print_due args (Z.of_nat k)), (save_due args (Z.of_nat k)); cbn; lia. }
  exists st', new, rates. by repeat split.
Qed.
End LoopTraces.

Lemma streams_in_lockstep_witness :
  exists (st' : @state Q Demo.torch) (new : list (@event Q Demo.torch)),
    train_loop Demo.args Demo.st0 = Ok (tt, st') /\
    cursor (style_iter st') = 3%nat /\
    Ok <$> pulled ValContentStream new = [Ok 300; Ok 301; Ok 302].
Proof.
  destruct (streams_in_lockstep Demo.args Demo.st0) as (st' & new & Hrun & _ & Hx).
  - cbn; lia.
  - cbn; lia.
  - cbn; discriminate.
  - exact demo_rates_ok.
  - exact demo_pulls_ok.
  - exists st', new. split; [exact Hrun|].
    split; [exact (proj1 (proj2 (Hx StyleStream)))|].
    exact (proj2 (proj2 (Hx ValContentStream))).
Defined.

Lemma steps_follow_schedule_witness :
  exists (st' : @state Q Demo.torch) (new : list (@event Q Demo.torch)),
    train_loop Demo.args Demo.st0 = Ok (tt, st') /\
    length (step_rates new) = 3%nat /\
    length (List.filter is_optimizer_step new) = 3%nat.
Proof.
  destruct (steps_follow_schedule Demo.args Demo.st0)
    as (st' & new & rates & Hrun & _ & Hlen & _ & Hsteps & _ & Hcount).
  - cbn; lia.
  - cbn; lia.
  - cbn; discriminate.
  - exact demo_rates_ok.
  - exact demo_pulls_ok.
  - exists st', new. split; [exact Hrun|]. split; [|exact Hcount].
    rewrite Hsteps, length_fmap. exact Hlen.
Defined.

Section LoopFiles.
Context {F : Type} {HF : PyFloat F} {HT : Torch F}.

Lemma rates_ok_shift (args : Args F) (n a b : nat) :
  rates_ok args 0 n -> (a + b <= n)%nat -> rates_ok args (Z.of_nat a) b.
Proof.
  intros Hr Hab k Hk.
  replace (Z.of_nat a + Z.of_nat k) with (0 + Z.of_nat (a + k)) by lia.
  apply Hr. lia.
Qed.

Lemma pulls_ok_shift (st st_a : state) (n a b : nat) :
  pulls_ok st n -> (a + b <= n)%nat ->
  (forall x, source (get_iter x st_a) = source (get_iter x st)
             /\ cursor (get_iter x st_a) = (cursor (get_iter x st) + a)%nat) ->
  pulls_ok st_a b.
Proof.
  intros Hpull Hab Hiter x k Hk. destruct (Hiter x) as [-> ->].
  rewrite <- Nat.add_assoc. apply Hpull. lia.
Qed.

(** X7.  A checkpoint is a snapshot: in a run that completes, the file
    written after [k] iterations holds the CPU copy of the decoder's
    parameters as they were after those [k] iterations, and training on
    does not touch it. *)
Theorem checkpoint_holds_snapshot (args : Args F) (st : state) (k : nat) :
  loss_print_interval args <> 0 ->
  save_model_interval args <> 0 ->
  param_groups (optim st) <> [] ->
  rates_ok args 0 (Z.to_nat (max_iter args)) ->
  pulls_ok st (Z.to_nat (max_iter args)) ->
  (1 <= k <= Z.to_nat (max_iter args))%nat ->
  save_due args (Z.of_nat k - 1) = true ->
  exists st_k st',
    for_range k 0 (iteration args) st = Ok (tt, st_k) /\
    train_loop args st = Ok (tt, st') /\
    files st' !! checkpoint_path args (Z.of_nat k)
    = Some (to_cpu (decoder_params st_k)).
Proof.
  intros Hp Hsv Hg Hr Hpull Hk Hdue.
  set (n := Z.to_nat (max_iter args)) in *.
  destruct (for_range_inv args k
              (fun j st_j =>
                 (1 <= j)%nat -> save_due args (Z.of_nat j - 1) = true ->
                 files st_j !! checkpoint_path args (Z.of_nat j)
                 = Some (to_cpu (decoder_params st_j)))
              0 st Hp Hsv Hg)
    as (st_k & Hrun_k & Hfile & Hgk & Hiter_k).
  { apply (rates_ok_shift args n 0 k Hr). lia. }
  { intros x j Hj. apply Hpull. lia. }
  { lia. }
  { intros j st_j r s c v Hj _ _ _ _ _ _ _ _ _ Hd.
    rewrite Z.add_0_l.
    replace (Z.of_nat (S j) - 1) with (Z.of_nat j) in Hd by lia.
    unfold after_iteration. cbn -[checkpoint_path]. rewrite Hd.
    replace (Z.of_nat (S j)) with (Z.of_nat j + 1) by lia.
    by rewrite lookup_insert_eq. }
  specialize (Hfile ltac:(lia) Hdue).
  destruct (for_range_inv args (n - k)
              (fun j st_j =>
                 files st_j !! checkpoint_path args (Z.of_nat k)
                 = files st_k !! checkpoint_path args (Z.of_nat k))
              (Z.of_nat k) st_k Hp Hsv Hgk)
    as (st' & Hrun & Hsame & _).
  { apply (rates_ok_shift args n k (n - k) Hr). lia. }
  { apply (pulls_ok_shift st st_k n k (n - k) Hpull); [lia | exact Hiter_k]. }
  { reflexivity. }
  { intros j st_j r s c v Hj Hsame _ _ _ _ _ _ _.
    rewrite <- Hsame. unfold after_iteration. cbn -[checkpoint_path].
    destruct (save_due args (Z.of_nat k + Z.of_nat j)); [|done].
    apply lookup_insert_ne. intros E. apply checkpoint_path_inj in E. lia. }
  exists st_k, st'. split; [exact Hrun_k|]. split; [|by rewrite Hsame].
  unfold train_loop. fold n. replace n with (k + (n - k))%nat by lia.
  by rewrite for_range_app, Hrun_k.
Qed.

End LoopFiles.

Lemma checkpoint_holds_snapshot_witness :
  exists (st_2 st' : @state Q Demo.torch),
    for_range 2 0 (iteration Demo.args) Demo.st0 = Ok (tt, st_2) /\
    train_loop Demo.args Demo.st0 = Ok (tt, st') /\
    files st' !! "experiments/decoder_iter_2.pth.tar"
    = Some (decoder_params st_2).
Proof.
  destruct (checkpoint_holds_snapshot Demo.args Demo.st0 2)
    as (st_2 & st' & H2 & Hrun & Hfile).
  - cbn; lia.
  - cbn; lia.
  - cbn; discriminate.
  - exact demo_rates_ok.
  - exact demo_pulls_ok.
  - cbn; lia.
  - reflexivity.
  - exists st_2, st'. split; [exact H2|]. split; [exact Hrun | exact Hfile].
Defined.

Section LoopCounts.
Context {F : Type} {HF : PyFloat F} {HT : Torch F}.

Lemma div_succ (k a : Z) :
  0 < k -> 0 <= a ->
  (a + 1) / k = a / k + (if bool_decide ((a + 1) mod k = 0) then 1 else 0).
Proof.
  intros Hk Ha.
  pose proof (Z.div_mod a k ltac:(lia)) as Ea.
  pose proof (Z.mod_pos_bound a k Hk) as Ba.
  destruct (decide (a mod k = k - 1)) as [Hlast|Hnot].
  - assert (Hm : (a + 1) mod k = 0).
    { symmetry. apply Z.mod_unique with (q := a / k + 1); lia. }
    rewrite bool_decide_eq_true_2 by exact Hm.
    symmetry. apply Z.div_unique with (r := 0); lia.
  - assert (Hm : (a + 1) mod k = a mod k + 1).
    { symmetry. apply Z.mod_unique with (q := a / k); lia. }
    rewrite bool_decide_eq_false_2 by lia.
    rewrite Z.add_0_r. symmetry. apply Z.div_unique with (r := a mod k + 1); lia.
Qed.

Lemma due_checkpoints_length (args : Args F) (n : nat) : forall i : Z,
  0 < save_model_interval args -> 0 <= i ->
  i + Z.of_nat n < max_iter args ->
  Z.of_nat (length (due_checkpoints args n i))
  = (i + Z.of_nat n) / save_model_interval args - i / save_model_interval args.
Proof.
  induction n as [|n IH]; intros i Hk Hi Hn; cbn [due_checkpoints].
  - rewrite Z.add_0_r. cbn. lia.
  - rewrite length_app, Nat2Z.inj_add, IH by lia.
    replace (i + 1 + Z.of_nat n) with (i + Z.of_nat (S n)) by lia.
    rewrite (div_succ _ i Hk Hi). unfold save_due.
    rewrite (bool_decide_eq_false_2 (i + 1 = max_iter args)) by lia.
    rewrite orb_false_r.
    destruct (bool_decide ((i + 1) mod save_model_interval args = 0)); cbn; lia.
Qed.

Lemma due_checkpoints_app (args : Args F) (a b : nat) : forall i : Z,
  due_checkpoints args (a + b) i
  = due_checkpoints args a i ++ due_checkpoints args b (i + Z.of_nat a).
Proof.
  induction a as [|a IH]; intros i.
  - cbn. by rewrite Z.add_0_r.
  - cbn [due_checkpoints Nat.add]. rewrite IH, <- app_assoc.
    by replace (i + 1 + Z.of_nat a) with (i + Z.of_nat (S a)) by lia.
Qed.

(** X9.  With a positive [--save_model_interval k] a run of
    [max_iter > 0] iterations that completes writes
    [(max_iter - 1) // k + 1] checkpoint files: one for every multiple of
    [k] below [max_iter], and the one of the last iteration. *)
Theorem checkpoint_count (args : Args F) (st : state) :
  0 < save_model_interval args ->
  0 < max_iter args ->
  loss_print_interval args <> 0 ->
  param_groups (optim st) <> [] ->
  rates_ok args 0 (Z.to_nat (max_iter args)) ->
  pulls_ok st (Z.to_nat (max_iter args)) ->
  exists st' new,
    train_loop args st = Ok (tt, st') /\
    trace st' = trace st ++ new /\
    Z.of_nat (length (saved_paths new))
    = (max_iter args - 1) / save_model_interval args + 1.
Proof.
  intros Hk Hn Hp Hg Hr Hpull.
  destruct (for_range_run args (Z.to_nat (max_iter args)) 0 st Hp ltac:(lia) Hg Hr Hpull)
    as (st' & new & Hrun & Htr & Hsaved & _).
  exists st', new. split; [exact Hrun|]. split; [exact Htr|].
  rewrite Hsaved, length_map.
  replace (Z.to_nat (max_iter args)) with (Z.to_nat (max_iter args - 1) + 1)%nat by lia.
  rewrite due_checkpoints_app, length_app, Nat2Z.inj_add.
  rewrite due_checkpoints_length by lia.
  rewrite Z.add_0_l, Z2Nat.id, Z.div_0_l by lia.
  cbn [due_checkpoints]. unfold save_due.
  rewrite (bool_decide_eq_true_2 (max_iter args - 1 + 1 = max_iter args)) by lia.
  rewrite orb_true_r. cbn. lia.
Qed.

Lemma print_due_abs (args : Args F) (i : Z) :
  print_due args i
  = bool_decide ((i + 1) mod Z.abs (loss_print_interval args) = 0).
Proof.
  unfold print_due. apply bool_decide_ext.
  destruct (decide (loss_print_interval args = 0)) as [->|Hp]; [done|].
  rewrite !Z.mod_divide by lia. symmetry. apply Z.divide_abs_l.
Qed.

(** The events of an iteration start with the log of its learning rate,
    and hold a progress line exactly when one is due. *)
Lemma iteration_events_prints (args : Args F) i st r s c v pr sv :
  exists rest tl vl,
    iteration_events args i st r s c v pr sv
    = EvAddScalar "Learning rate" r (i + 1) :: rest /\
    logged "Learning rate" rest = [] /\
    List.filter is_print rest = if pr then [EvPrint r tl vl] else [].
Proof.
  set (st2 := after_train args i (after_head i st r s) s c).
  set (tl := forward Training (grad_enabled st) (decoder_params st) c s).
  set (vl := forward Evaluation false (decoder_params st2) v s).
  exists ([ EvNext StyleStream s ]
          ++ train_events args i
               (map pg_lr (param_groups (optim (after_head i st r s)))) s c
               (grad_enabled st) tl
          ++ val_events args i s v vl
          ++ tail_events args i r (weighted args tl) (weighted args vl)
               (decoder_params st2) pr sv),
    (loss_item (weighted args tl)), (loss_item (weighted args vl)).
  split; [reflexivity|].
  unfold logged, tail_events, train_events, val_events.
  rewrite !omap_app, !List.filter_app.
  by destruct pr, sv.
Qed.

(** X10.  A progress line is printed after iteration [i] exactly when
    [(i + 1) % loss_print_interval == 0].  The events of a run that
    completes fall into one stretch per iteration, the stretch of iteration
    [i] starting at the log of its learning rate (step [i + 1]); that
    stretch holds one progress line, showing the rate of iteration [i],
    when [(i + 1) % loss_print_interval == 0], and none otherwise.  In all,
    [max_iter // abs(loss_print_interval)] lines are printed. *)
Theorem progress_line_count (args : Args F) (st : state) :
  loss_print_interval args <> 0 ->
  save_model_interval args <> 0 ->
  param_groups (optim st) <> [] ->
  rates_ok args 0 (Z.to_nat (max_iter args)) ->
  pulls_ok st (Z.to_nat (max_iter args)) ->
  exists st' segs,
    train_loop args st = Ok (tt, st') /\
    trace st' = trace st ++ concat segs /\
    length segs = Z.to_nat (max_iter args) /\
    (forall (i : nat) (seg : list event), segs !! i = Some seg ->
       exists r rest tl vl,
         lr_schedule (lr args) (lr_decay args) (Z.of_nat i) = Ok r /\
         seg = EvAddScalar "Learning rate" r (Z.of_nat i + 1) :: rest /\
         logged "Learning rate" rest = [] /\
         List.filter is_print rest
         = if bool_decide ((Z.of_nat i + 1) mod loss_print_interval args = 0)
           then [EvPrint r tl vl] else []) /\
    Z.of_nat (length (List.filter is_print (concat segs)))
    = Z.max 0 (max_iter args) / Z.abs (loss_print_interval args).
Proof.
  intros Hp Hsv Hg Hr Hpull.
  destruct (for_range_inv args (Z.to_nat (max_iter args))
              (fun k st_k => exists segs,
                 trace st_k = trace st ++ concat segs /\
                 length segs = k /\
                 (forall (i : nat) (seg : list event), segs !! i = Some seg ->
                    exists r rest tl vl,
                      lr_schedule (lr args) (lr_decay args) (Z.of_nat i) = Ok r /\
                      seg = EvAddScalar "Learning rate" r (Z.of_nat i + 1) :: rest /\
                      logged "Learning rate" rest = [] /\
                      List.filter is_print rest
                      = if bool_decide ((Z.of_nat i + 1) mod loss_print_interval args = 0)
                        then [EvPrint r tl vl] else []) /\
                 Z.of_nat (length (List.filter is_print (concat segs)))
                 = Z.of_nat k / Z.abs (loss_print_interval args))
              0 st Hp Hsv Hg Hr Hpull)
    as (st' & Hrun & (segs & Htr & Hlen & Hsegs & Hcount) & _).
  { exists []. split; [by rewrite app_nil_r|]. split; [done|].
    split; [intros i seg Hi; by rewrite lookup_nil in Hi|].
    cbn. by rewrite Z.div_0_l by lia. }
  { intros k st_k r s c v Hk (segs & Htr & Hlen & Hsegs & Hcount) _ _ Er _ _ _ _.
    rewrite Z.add_0_l in *.
    destruct (iteration_events_prints args (Z.of_nat k) st_k r s c v
                (print_due args (Z.of_nat k)) (save_due args (Z.of_nat k)))
      as (rest & tl & vl & Hseg & Hlog & Hpr).
    exists (segs ++ [iteration_events args (Z.of_nat k) st_k r s c v
                       (print_due args (Z.of_nat k)) (save_due args (Z.of_nat k))]).
    split; [|split; [|split]].
    - cbn [after_iteration trace]. rewrite Htr, concat_app. cbn [concat].
      by rewrite app_nil_r, <- app_assoc.
    - rewrite length_app. cbn. lia.
    - intros i seg Hi. apply lookup_app_Some in Hi as [Hi|[Hge Hi]].
      + by apply Hsegs.
      + rewrite Hlen in Hi, Hge.
        apply list_lookup_singleton_Some in Hi as [Hi0 <-].
        replace i with k by lia.
        exists r, rest, tl, vl. by repeat split.
    - rewrite concat_app, List.filter_app, length_app, Nat2Z.inj_add, Hcount.
      cbn [concat]. rewrite app_nil_r, Hseg. cbn [List.filter is_print].
      rewrite Hpr, print_due_abs.
      replace (Z.of_nat (S k)) with (Z.of_nat k + 1) by lia.
      rewrite (div_succ (Z.abs (loss_print_interval args)) (Z.of_nat k)) by lia.
      by destruct (bool_decide _). }
  exists st', segs. split; [exact Hrun|]. split; [exact Htr|].
  split; [exact Hlen|]. split; [exact Hsegs|].
  rewrite Hcount. f_equal. lia.
Qed.

(** X11.  After a run of at least one iteration that completes, the
    network is left in evaluation mode, gradient tracking is as it was
    before the run (the no-gradient scope of every validation pass has been
    left), and the gradients that are stored are those of the last training
    step: the gradient of the weighted loss of the last train-content and
    style batch at the parameters before the last update. *)
Theorem state_after_the_loop (args : Args F) (st : state) :
  0 < max_iter args ->
  loss_print_interval args <> 0 ->
  save_model_interval args <> 0 ->
  param_groups (optim st) <> [] ->
  rates_ok args 0 (Z.to_nat (max_iter args)) ->
  pulls_ok st (Z.to_nat (max_iter args)) ->
  let last := (Z.to_nat (max_iter args) - 1)%nat in
  exists st_last st' s c,
    for_range last 0 (iteration args) st = Ok (tt, st_last) /\
    train_loop args st = Ok (tt, st') /\
    source (style_iter st) (cursor (style_iter st) + last) = Ok s /\
    source (train_content_iter st) (cursor (train_content_iter st) + last) = Ok c /\
    mode st' = Evaluation /\
    grad_enabled st' = grad_enabled st /\
    grads st'
    = Some (loss_grad (weighted args
              (forward Training (grad_enabled st) (decoder_params st_last) c s))) /\
    length (param_groups (optim st')) = length (param_groups (optim st)).
Proof.
  intros Hn Hp Hsv Hg Hr Hpull last.
  set (n := Z.to_nat (max_iter args)) in *.
  destruct (for_range_inv args last
              (fun k st_k =>
                 grad_enabled st_k = grad_enabled st /\
                 length (param_groups (optim st_k)) = length (param_groups (optim st)))
              0 st Hp Hsv Hg)
    as (st_last & Hrun & (Hge & Hlen) & Hgl & Hiter).
  { apply (rates_ok_shift args n 0 last Hr). lia. }
  { intros x k Hk. apply Hpull. lia. }
  { done. }
  { intros k st_k r s c v Hk (Hge & Hlen) _ _ _ _ _ _ _.
    split; [exact Hge|]. by rewrite after_iteration_group_count. }
  destruct (Hr last ltac:(lia)) as [r Er].
  destruct (Hpull StyleStream last ltac:(lia)) as [s Es].
  destruct (Hpull TrainContentStream last ltac:(lia)) as [c Ec].
  destruct (Hpull ValContentStream last ltac:(lia)) as [v Ev].
  cbn [get_iter] in Es, Ec, Ev.
  pose proof (Hiter StyleStream) as [Hs1 Hs2].
  pose proof (Hiter TrainContentStream) as [Hc1 Hc2].
  pose proof (Hiter ValContentStream) as [Hv1 Hv2].
  cbn [get_iter] in Hs1, Hs2, Hc1, Hc2, Hv1, Hv2.
  pose proof (iteration_run args (0 + Z.of_nat last) st_last r s c v Er Hgl) as Hit.
  rewrite Hs1, Hs2, Hc1, Hc2, Hv1, Hv2 in Hit.
  specialize (Hit Es Ec Ev Hp Hsv).
  exists st_last,
    (after_iteration args (0 + Z.of_nat last) st_last r s c v
       (print_due args (0 + Z.of_nat last)) (save_due args (0 + Z.of_nat last))),
    s, c.
  split; [exact Hrun|]. split.
  { unfold train_loop. fold n. replace n with (last + 1)%nat by lia.
    rewrite for_range_app, Hrun. cbn [for_range].
    unfold mbind, M_bind, bind. rewrite Hit. reflexivity. }
  split; [exact Es|]. split; [exact Ec|].
  cbn. rewrite Hge. split; [done|]. split; [done|]. split; [done|].
  by rewrite length_map.
Qed.
End LoopCounts.

Lemma checkpoint_count_witness :
  exists (st' : @state Q Demo.torch) (new : list (@event Q Demo.torch)),
    train_loop Demo.args Demo.st0 = Ok (tt, st') /\
    Z.of_nat (length (saved_paths new)) = 2.
Proof.
  destruct (checkpoint_count Demo.args Demo.st0) as (st' & new & Hrun & _ & Hcount).
  - cbn; lia.
  - cbn; lia.
  - cbn; lia.
  - cbn; discriminate.
  - exact demo_rates_ok.
  - exact demo_pulls_ok.
  - exists st', new. split; [exact Hrun | exact Hcount].
Defined.

Lemma progress_line_count_witness :
  exists (st' : @state Q Demo.torch) (segs : list (list (@event Q Demo.torch))),
    train_loop Demo.args Demo.st0 = Ok (tt, st') /\
    length segs = 3%nat /\
    Z.of_nat (length (List.filter is_print (concat segs))) = 3.
Proof.
  destruct (progress_line_count Demo.args Demo.st0)
    as (st' & segs & Hrun & _ & Hlen & _ & Hcount).
  - cbn; lia.
  - cbn; lia.
  - cbn; discriminate.
  - exact demo_rates_ok.
  - exact demo_pulls_ok.
  - exists st', segs. split; [exact Hrun|]. split; [exact Hlen | exact Hcount].
Defined.

Lemma state_after_the_loop_witness :
  exists (st_last st' : @state Q Demo.torch),
    for_range 2 0 (iteration Demo.args) Demo.st0 = Ok (tt, st_last) /\
    train_loop Demo.args Demo.st0 = Ok (tt, st') /\
    mode st' = Evaluation /\
    grad_enabled st' = true /\
    grads st' = Some (1 * (decoder_params st_last * inject_Z 202)
                      + 1 * (decoder_params st_last * inject_Z 102))%Q.
Proof.
  destruct (state_after_the_loop Demo.args Demo.st0)
    as (st_last & st' & s & c & Hlast & Hrun & Hs & Hc & Hm & Hg & Hgr & _).
  - cbn; lia.
  - cbn; lia.
  - cbn; lia.
  - cbn; discriminate.
  - exact demo_rates_ok.
  - exact demo_pulls_ok.
  - exists st_last, st'. split; [exact Hlast|]. split; [exact Hrun|].
    split; [exact Hm|]. split; [exact Hg|].
    injection Hs as <-. injection Hc as <-. exact Hgr.
Defined.

(** * Further properties of the schedule, the datasets and the seeding *)

Section ScheduleMore.
Context {F : Type} {HF : PyFloat F} {HT : Torch F}.

(** X12.  The rate is recomputed, not accumulated: adjusting for iteration
    [j] after having adjusted for iteration [i] leaves the optimizer as
    adjusting for [j] alone does, with as many parameter groups as before
    and the moment estimates untouched; and when the schedule raises,
    [adjust_learning_rate] raises the same and changes nothing. *)
Theorem adjust_learning_rate_composes (args : Args F) (o o1 : optimizer) (i j : Z) :
  adjust_learning_rate args o i = Ok o1 ->
  adjust_learning_rate args o1 j = adjust_learning_rate args o j /\
  length (param_groups o1) = length (param_groups o) /\
  opt_state o1 = opt_state o /\
  (forall g, g ∈ param_groups o1 ->
     lr_schedule (lr args) (lr_decay args) i = Ok (pg_lr g)).
Proof.
  intros Hi. unfold adjust_learning_rate in *.
  destruct (lr_schedule (lr args) (lr_decay args) i) as [ri|e] eqn:Ei; [|discriminate].
  cbn in Hi. injection Hi as <-. cbn. repeat split.
  - destruct (lr_schedule (lr args) (lr_decay args) j) as [rj|e]; [|done].
    cbn. do 2 f_equal. by rewrite map_map.
  - by rewrite length_map.
  - intros g Hg. apply list_elem_of_fmap in Hg as (g0 & -> & _). done.
Qed.
End ScheduleMore.

Lemma adjust_learning_rate_composes_witness :
  let o : @optimizer Q Demo.torch := @Adam Q Demo.torch (1 # 2)%Q 5%nat in
  exists o1,
    adjust_learning_rate Demo.args o 0 = Ok o1 /\
    adjust_learning_rate Demo.args o1 2 = adjust_learning_rate Demo.args o 2.
Proof.
  intros o. eexists. split; [reflexivity|].
  apply (adjust_learning_rate_composes Demo.args o _ 0 2). reflexivity.
Defined.

Local Open Scope Q_scope.



Local Close Scope Q_scope.

Section DataMore.
Context {HI : Imaging}.

(** X14.  Indexing from the end: for [1 <= k <= length], access at [-k]
    is access at [length - k] -- the same path, the same outcome -- so
    [ds[-1]] is the last entry. *)
Theorem getitem_from_the_end (fs : gmap string fs_node) (ds : FlatFolderDataset)
    (k : Z) :
  1 <= k <= FlatFolderDataset_len ds ->
  FlatFolderDataset_getitem fs ds (- k)
  = FlatFolderDataset_getitem fs ds (FlatFolderDataset_len ds - k).
Proof.
  unfold FlatFolderDataset_len, FlatFolderDataset_getitem. intros Hk.
  f_equal. unfold py_index.
  rewrite (decide_True (P := - k < 0)) by lia.
  rewrite (decide_False (P := Z.of_nat (length (paths ds)) - k < 0)) by lia.
  by replace (- k + Z.of_nat (length (paths ds)))
    with (Z.of_nat (length (paths ds)) - k) by lia.
Qed.

(** X15.  The listing is not filtered and not refreshed: an entry that is a
    subdirectory, or a file that has been removed since the dataset was
    built, still counts in the length, and access at its index raises
    [IsADirectoryError], respectively [FileNotFoundError], for its path. *)
Theorem getitem_unreadable_entry (fs fs' : gmap string fs_node) (dir : string)
    (children : list string) (tf : list transform) (ds : FlatFolderDataset)
    (index : nat) (name : string) :
  fs !! path_str (Path_of dir) = Some (Directory children) ->
  FlatFolderDataset_init fs dir tf = Ok ds ->
  children !! index = Some name ->
  FlatFolderDataset_len ds = Z.of_nat (length children) /\
  (fs' !! glob_child dir name = None ->
   FlatFolderDataset_getitem fs' ds (Z.of_nat index)
   = Raise (FileNotFoundError (glob_child dir name))) /\
  (forall sub, fs' !! glob_child dir name = Some (Directory sub) ->
   FlatFolderDataset_getitem fs' ds (Z.of_nat index)
   = Raise (IsADirectoryError (glob_child dir name))).
Proof.
  intros Hdir Hinit Hname.
  unfold FlatFolderDataset_init, glob_star, is_dir, scandir in Hinit.
  rewrite Hdir in Hinit. cbn in Hinit. injection Hinit as <-.
  unfold FlatFolderDataset_len, FlatFolderDataset_getitem. cbn.
  rewrite length_map.
  assert (Hidx : py_index (map (glob_child dir) children) (Z.of_nat index)
                 = Ok (glob_child dir name)).
  { unfold py_index. rewrite length_map.
    pose proof (lookup_lt_Some _ _ _ Hname) as Hlt.
    rewrite (decide_False (P := Z.of_nat index < 0)) by lia.
    rewrite decide_True by lia.
    rewrite Nat2Z.id. change (map (glob_child dir) children) with (glob_child dir <$> children).
    by rewrite list_lookup_fmap, Hname. }
  rewrite Hidx. cbn. unfold image_open.
  split; [done|]. split.
  - by intros ->.
  - by intros sub ->.
Qed.

(** X16.  Composed transforms run in list order, the first failure ending
    the call; and the pipeline's transform expects an image: given a
    tensor -- its own output, say -- it raises [TypeError] at [ToTensor]. *)
Theorem compose_call_sequence (ts1 ts2 : list transform) (x : pic) :
  compose_call (ts1 ++ ts2) x = (y ← compose_call ts1 x; compose_call ts2 y) /\
  (forall t : tensor, compose_call train_transform (Tens t) = Raise TypeError) /\
  (forall im y, compose_call train_transform (Pil im) = Ok y ->
     compose_call train_transform y = Raise TypeError).
Proof.
  split; [|split].
  - revert x. induction ts1 as [|t ts1 IH]; intros x; [done|].
    cbn. destruct (apply_transform t x) as [y|e]; [apply IH | done].
  - reflexivity.
  - intros im y Hy. cbn in Hy. by injection Hy as <-.
Qed.
End DataMore.

Lemma getitem_from_the_end_witness :
  1 <= 1 <= 3 /\
  FlatFolderDataset_getitem Demo.disk
    {| root := "style";
       paths := ["style/a.jpg"; "style/b.png"; "style/notes.txt"];
       ds_transform := style_tf |} (- 1)
  = FlatFolderDataset_getitem Demo.disk
    {| root := "style";
       paths := ["style/a.jpg"; "style/b.png"; "style/notes.txt"];
       ds_transform := style_tf |} 2.
Proof.
  split; [lia|].
  apply (getitem_from_the_end Demo.disk
           {| root := "style";
              paths := ["style/a.jpg"; "style/b.png"; "style/notes.txt"];
              ds_transform := style_tf |} 1).
  unfold FlatFolderDataset_len. simpl. lia.
Defined.

Lemma getitem_unreadable_entry_witness :
  let fs' : gmap string (@fs_node Demo.imaging) :=
    <["style/b.png" := Directory ["x.png"]]> (delete "style/a.jpg" Demo.disk) in
  exists ds,
    FlatFolderDataset_init Demo.disk "style" style_tf = Ok ds /\
    FlatFolderDataset_len ds = 3 /\
    FlatFolderDataset_getitem fs' ds 0 = Raise (FileNotFoundError "style/a.jpg") /\
    FlatFolderDataset_getitem fs' ds 1 = Raise (IsADirectoryError "style/b.png").
Proof.
  intros fs'. eexists. split; [reflexivity|].
  pose proof (getitem_unreadable_entry Demo.disk fs' "style"
                ["a.jpg"; "b.png"; "notes.txt"] style_tf _ 0 "a.jpg"
                eq_refl eq_refl eq_refl) as (Hlen & Hgone & _).
  pose proof (getitem_unreadable_entry Demo.disk fs' "style"
                ["a.jpg"; "b.png"; "notes.txt"] style_tf _ 1 "b.png"
                eq_refl eq_refl eq_refl) as (_ & _ & Hsub).
  split; [exact Hlen|]. split.
  - apply Hgone. reflexivity.
  - apply (Hsub ["x.png"]). reflexivity.
Defined.

Lemma compose_call_sequence_witness :
  compose_call train_transform (@Pil Demo.imaging "A")
    = Ok (@Tens Demo.imaging "tensor:resized:A") /\
  compose_call train_transform (@Tens Demo.imaging "tensor:resized:A")
    = Raise TypeError.
Proof.
  split; [reflexivity|].
  apply (proj2 (proj2 (compose_call_sequence (HI:=Demo.imaging) [] []
                         (@Pil Demo.imaging "A"))) "A").
  reflexivity.
Defined.

Section SeedingMore.
Context {HR : NumpyRandom}.

(** X17.  Seeding after the module prologue: the prologue's
    [cudnn.benchmark = True] is overridden (benchmark mode is off and
    deterministic mode on while the script runs), the two PIL settings of
    the prologue stay, every generator is seeded with the given seed (42
    when it is omitted), and seeding again with the same seed changes
    nothing.  A seed outside [[0, 2**32)] is refused with [ValueError]. *)
Theorem seed_everything_effects (seed : option Z) (p : process) :
  let s := default 42 seed in
  (0 <= s < 2 ^ 32 ->
   exists p',
     seed_everything seed (module_prologue p) = Ok p' /\
     seeded_with s p' /\
     cudnn_benchmark p' = false /\
     cudnn_deterministic p' = true /\
     printoptions_precision p' = 10 /\
     MAX_IMAGE_PIXELS p' = None /\
     LOAD_TRUNCATED_IMAGES p' = true /\
     seed_everything seed p' = Ok p') /\
  (~ (0 <= s < 2 ^ 32) -> seed_everything seed p = Raise ValueError).
Proof.
  intros s. split.
  - intros Hs. unfold seed_everything. fold s. cbv zeta.
    rewrite decide_True by exact Hs.
    eexists. split; [reflexivity|]. cbn -[Z.pow].
    do 6 (split; [done|]). by rewrite decide_True by exact Hs.
  - intros Hs. unfold seed_everything. fold s. cbv zeta.
    by rewrite decide_False by exact Hs.
Qed.
End SeedingMore.

Lemma seed_everything_effects_witness :
  0 <= 42 < 2 ^ 32 /\
  exists p' : @process Demo.numpy,
    seed_everything None (module_prologue Demo.proc_used) = Ok p' /\
    cudnn_benchmark p' = false /\
    LOAD_TRUNCATED_IMAGES p' = true.
Proof.
  split; [lia|].
  destruct (proj1 (seed_everything_effects None Demo.proc_used))
    as (p' & Hs & _ & Hb & _ & _ & _ & Ht & _).
  - cbn. lia.
  - exists p'. split; [exact Hs|]. split; [exact Hb | exact Ht].
Defined.
